(** * silencer: a Mattermost slash command that creates Alertmanager silences

    A shallow embedding of [main.py] and the properties of its duration
    parser, its silence payload and its request handler.

    Python values are modelled as follows.
    - [str] is a list of Unicode code points ([list N]); literals of the
      source are written [str "..."].
    - exceptions are values of [exn] (class and [str(e)] text), and code that
      may raise returns a [result].
    - [os.environ], the [units] dict and JSON objects are finite maps.
    - the clock and the Alertmanager backend are inputs ([world]); what the
      handler logs and posts is returned as a list of [event]s. *)

From Stdlib Require Import ZArith NArith List String Ascii Bool Lia DecimalString.
From stdpp Require Import base option list gmap.

Local Open Scope Z_scope.

(** ** Python strings *)

Abbreviation pystr := (list N).

Definition str (s : string) : pystr :=
  map N_of_ascii (list_ascii_of_string s).

(** [str.isspace] for one code point (Py_UNICODE_ISSPACE). *)
Definition whitespace : list N :=
  [9; 10; 11; 12; 13; 28; 29; 30; 31; 32; 133; 160; 5760;
   8192; 8193; 8194; 8195; 8196; 8197; 8198; 8199; 8200; 8201; 8202;
   8232; 8233; 8239; 8287; 12288]%N.

Definition is_space (c : N) : bool := bool_decide (c ∈ whitespace).

(** The code points of general category Nd come in runs of ten, digit 0
    first (Unicode 15.0, the version of Python 3.12); both [\d] and [int]
    read them through Py_UNICODE_TODECIMAL. *)
Definition decimal_zeros : list N :=
  [48; 1632; 1776; 1984; 2406; 2534; 2662; 2790; 2918; 3046; 3174; 3302;
   3430; 3558; 3664; 3792; 3872; 4160; 4240; 6112; 6160; 6470; 6608; 6784;
   6800; 6992; 7088; 7232; 7248; 42528; 43216; 43264; 43472; 43504; 43600;
   44016; 65296; 66720; 68912; 69734; 69872; 69942; 70096; 70384; 70736;
   70864; 71248; 71360; 71472; 71904; 72016; 72784; 73040; 73120; 73552;
   92768; 92864; 93008; 120782; 120792; 120802; 120812; 120822; 123200;
   123632; 124144; 125264; 130032]%N.

Fixpoint decimal_in (zeros : list N) (c : N) : option Z :=
  match zeros with
  | [] => None
  | z :: zeros' =>
      if ((z <=? c) && (c <? z + 10))%N then Some (Z.of_N (c - z))
      else decimal_in zeros' c
  end.

Definition decimal_value (c : N) : option Z := decimal_in decimal_zeros c.

Definition is_decimal (c : N) : bool :=
  match decimal_value c with Some _ => true | None => false end.

(** [s.split(sep)] for a separator of one character, as every call of the
    source has it. *)
Fixpoint split (sep : N) (s : pystr) : list pystr :=
  match s with
  | [] => [[]]
  | c :: s' =>
      if (c =? sep)%N then [] :: split sep s'
      else match split sep s' with
           | w :: ws => (c :: w) :: ws
           | [] => [[c]]
           end
  end.

(** [s.split()]: the maximal runs of non-blank characters. *)
Fixpoint split_whitespace (s : pystr) : list pystr :=
  match s with
  | [] => []
  | c :: s' =>
      if is_space c then split_whitespace s'
      else match s' with
           | [] => [[c]]
           | c' :: _ =>
               if is_space c' then [c] :: split_whitespace s'
               else match split_whitespace s' with
                    | w :: ws => (c :: w) :: ws
                    | [] => [[c]]
                    end
           end
  end.

Fixpoint lstrip (s : pystr) : pystr :=
  match s with
  | c :: s' => if is_space c then lstrip s' else s
  | [] => []
  end.

(** [s.strip()] *)
Definition strip (s : pystr) : pystr := rev (lstrip (rev (lstrip s))).

(** [sep.join(words)] *)
Fixpoint join (sep : pystr) (words : list pystr) : pystr :=
  match words with
  | [] => []
  | [w] => w
  | w :: ws => w ++ sep ++ join sep ws
  end.

(** [str(n)] and ["%d" % n] for an integer. *)
Definition str_of_Z (n : Z) : pystr := str (NilZero.string_of_int (Z.to_int n)).

(** ["%0<width>d" % n] for a natural number. *)
Definition zero_padded (width : nat) (n : Z) : pystr :=
  let digits := str_of_Z n in
  repeat 48%N (width - length digits) ++ digits.

(** ** Exceptions *)

(** The exception classes that the program and its libraries raise below
    [Exception]; [JSONDecodeError] derives from [ValueError], and the httpx
    classes stand for [httpx.HTTPStatusError] and the transport errors. *)
Inductive exn_class :=
| ValueError | JSONDecodeError | OverflowError | IndexError | KeyError
| TypeError | HTTPStatusError | TransportError.

Record exn := Exn { exn_type : exn_class; exn_text : pystr }.

(** [isinstance(e, ValueError)] *)
Definition is_ValueError (e : exn) : bool :=
  match exn_type e with
  | ValueError | JSONDecodeError => true
  | _ => false
  end.

Inductive result (A : Type) :=
| Ok (a : A)
| Raise (e : exn).
Arguments Ok {A} a.
Arguments Raise {A} e.

Definition rbind {A B} (r : result A) (f : A → result B) : result B :=
  match r with
  | Ok a => f a
  | Raise e => Raise e
  end.

Notation "'let*' x ':=' r 'in' k" := (rbind r (fun x => k))
  (at level 10, x pattern, r at level 100, k at level 200).

(** ** Regular expressions

    The fragment of [re] that the duration pattern is written in: anchors,
    a character class, its greedy repetition, groups and sequence. The
    matcher backtracks like [re] does and records the groups in the order
    they close. *)
Inductive regex :=
| Bol                       (* ^ *)
| Eol                       (* $ *)
| Class (p : N → bool)      (* \d, [mhdw] *)
| Plus (p : N → bool)       (* class+ *)
| Group (r : regex)         (* ( r ) *)
| Seq (r1 r2 : regex).

Section Matcher.
Context {A : Type}.

(** One or more characters of class [p], the longest run first. *)
Fixpoint plus_from (p : N → bool) (pos : nat) (s : pystr)
    (k : nat → pystr → option A) : option A :=
  match s with
  | [] => None
  | c :: s' =>
      if p c then
        match plus_from p (S pos) s' k with
        | Some r => Some r
        | None => k (S pos) s'
        end
      else None
  end.
End Matcher.

(** [run r pos s groups k]: match [r] at offset [pos], where [s] is what
    is left of the subject, then go on with [k]. *)
Fixpoint run (r : regex) (pos : nat) (s : pystr) (groups : list pystr)
    (k : nat → pystr → list pystr → option (list pystr)) : option (list pystr) :=
  match r with
  | Bol => if Nat.eqb pos 0 then k pos s groups else None
  | Eol =>
      (* without MULTILINE: at the end, or before a newline that ends the subject *)
      match s with
      | [] => k pos s groups
      | [c] => if (c =? 10)%N then k pos s groups else None
      | _ => None
      end
  | Class p =>
      match s with
      | c :: s' => if p c then k (S pos) s' groups else None
      | [] => None
      end
  | Plus p => plus_from p pos s (fun pos' s' => k pos' s' groups)
  | Group r1 =>
      run r1 pos s groups
        (fun pos' s' groups' => k pos' s' (groups' ++ [take (pos' - pos) s]))
  | Seq r1 r2 =>
      run r1 pos s groups (fun pos' s' groups' => run r2 pos' s' groups' k)
  end.

(** [re.match(r, s)], giving [match.groups()]. *)
Definition re_match (r : regex) (s : pystr) : option (list pystr) :=
  run r 0 s [] (fun _ _ groups => Some groups).

(** ** int *)

Definition int_max_str_digits : nat := 4300.

(** The blanks that [int] skips around a numeral: among the ASCII
    characters those of C's [isspace], beyond them those of [str.isspace]
    (so U+001C to U+001F, blanks for [str.strip], are not skipped). *)
Definition is_int_space (c : N) : bool :=
  if (c <? 127)%N then bool_decide (c ∈ [9; 10; 11; 12; 13; 32]%N) else is_space c.

Fixpoint skip_int_space (s : pystr) : pystr :=
  match s with
  | c :: s' => if is_int_space c then skip_int_space s' else s
  | [] => []
  end.

(** The longest run of digits and underscores at the head of [s]: its
    digits and what follows it; nothing when two underscores meet or an
    underscore ends the run. *)
Fixpoint scan_digits (after_underscore : bool) (s : pystr)
    : option (list Z * pystr) :=
  match s with
  | c :: s' =>
      match decimal_value c with
      | Some d =>
          match scan_digits false s' with
          | Some (ds, rest) => Some (d :: ds, rest)
          | None => None
          end
      | None =>
          if (c =? 95)%N then
            if after_underscore then None else scan_digits true s'
          else if after_underscore then None else Some ([], s)
      end
  | [] => if after_underscore then None else Some ([], [])
  end.

Definition of_digits (ds : list Z) : Z :=
  fold_left (fun acc d => 10 * acc + d) ds 0.

Definition hex_digit (n : N) : N := if (n <? 10)%N then 48 + n else 87 + n.

(** One character in [repr(s)] between the quotes [q]. Characters above
    U+00FF are written as [repr] writes the printable ones. *)
Definition repr_char (q c : N) : pystr :=
  if (c =? q)%N || (c =? 92)%N then [92; c]%N
  else if (c =? 9)%N then [92; 116]%N
  else if (c =? 10)%N then [92; 110]%N
  else if (c =? 13)%N then [92; 114]%N
  else if (c <? 32)%N || ((127 <=? c)%N && (c <=? 160)%N) || (c =? 173)%N
       then [92; 120; hex_digit (c / 16); hex_digit (c mod 16)]%N
  else [c].

(** [repr(s)]: single quotes, unless the text holds one and no double
    quote. *)
Definition py_repr (s : pystr) : pystr :=
  let q := if bool_decide (39%N ∈ s) && negb (bool_decide (34%N ∈ s))
           then 34%N else 39%N in
  [q] ++ concat (map (repr_char q) s) ++ [q].

(** [int(s)] for a string: blanks, a sign, digits with single underscores
    between them, blanks. The number of digits is checked as soon as the run
    of digits has been read, before what follows it is looked at. *)
Definition py_int (s : pystr) : result Z :=
  let invalid :=
    Raise (Exn ValueError
      (str "invalid literal for int() with base 10: " ++ take 200 (py_repr s))) in
  let t := skip_int_space s in
  let '(sign, numeral) :=
    match t with
    | c :: t' =>
        if (c =? 45)%N then (-1, t')       (* - *)
        else if (c =? 43)%N then (1, t')   (* + *)
        else (1, t)
    | [] => (1, t)
    end in
  if bool_decide (head numeral = Some 95%N) then invalid
  else
    match scan_digits false numeral with
    | None => invalid
    | Some (ds, rest) =>
        if Nat.ltb int_max_str_digits (length ds) then
          Raise (Exn ValueError
            (str "Exceeds the limit (4300 digits) for integer string conversion: value has "
             ++ str_of_Z (Z.of_nat (length ds))
             ++ str " digits; use sys.set_int_max_str_digits() to increase the limit"))
        else
          match ds, skip_int_space rest with
          | _ :: _, [] => Ok (sign * of_digits ds)
          | _, _ => invalid
          end
    end.

(** ** timedelta *)

Record timedelta := { days : Z; seconds : Z; microseconds : Z }.

Definition MAX_DELTA_DAYS : Z := 999999999.

(** [timedelta(days, seconds, microseconds, milliseconds, minutes, hours,
    weeks)] on integers: the total is normalized to days, seconds of the
    day and microseconds of the second; the day count has to fit a C int
    and the range of the type. *)
Definition timedelta_new
    (days seconds microseconds milliseconds minutes hours weeks : Z)
    : result timedelta :=
  let us := microseconds + 1000 * milliseconds
            + 1000000 * (seconds + 60 * minutes + 3600 * hours
                         + 86400 * (days + 7 * weeks)) in
  let s := us / 1000000 in
  let d := s / 86400 in
  if (d <? - 2147483648) || (2147483647 <? d) then
    Raise (Exn OverflowError (str "Python int too large to convert to C int"))
  else if MAX_DELTA_DAYS <? Z.abs d then
    Raise (Exn OverflowError
      (str "days=" ++ str_of_Z d ++ str "; must have magnitude <= 999999999"))
  else Ok {| days := d; seconds := s mod 86400; microseconds := us mod 1000000 |}.

(** [timedelta] called with the single keyword [name], as a call that
    unpacks the dict [{name: n}] does. *)
Definition timedelta_kw (name : pystr) (n : Z) : result timedelta :=
  if decide (name = str "days") then timedelta_new n 0 0 0 0 0 0
  else if decide (name = str "seconds") then timedelta_new 0 n 0 0 0 0 0
  else if decide (name = str "microseconds") then timedelta_new 0 0 n 0 0 0 0
  else if decide (name = str "milliseconds") then timedelta_new 0 0 0 n 0 0 0
  else if decide (name = str "minutes") then timedelta_new 0 0 0 0 n 0 0
  else if decide (name = str "hours") then timedelta_new 0 0 0 0 0 n 0
  else if decide (name = str "weeks") then timedelta_new 0 0 0 0 0 0 n
  else Raise (Exn TypeError
         (str "'" ++ name ++ str "' is an invalid keyword argument for __new__()")).

(** ** parse_duration *)

Definition units : gmap pystr pystr :=
  {[ str "m" := str "minutes";
     str "h" := str "hours";
     str "d" := str "days";
     str "w" := str "weeks" ]}.

Definition is_unit_letter (c : N) : bool := bool_decide (c ∈ str "mhdw").

(** [r'^(\d+)([mhdw])$'] *)
Definition duration_pattern : regex :=
  Seq Bol (Seq (Group (Plus is_decimal)) (Seq (Group (Class is_unit_letter)) Eol)).

Definition invalid_duration_format : exn :=
  Exn ValueError
    (str "Invalid duration format. Use <number><unit> where unit is m,h,d,w").

Definition parse_duration (duration_str : pystr) : result timedelta :=
  match re_match duration_pattern duration_str with
  | None => Raise invalid_duration_format
  | Some groups =>
      match groups with
      | [value; unit] =>
          match units !! unit with
          | Some name => let* n := py_int value in timedelta_kw name n
          | None => Raise (Exn KeyError (str "'" ++ unit ++ str "'"))
          end
      | _ :: _ :: _ :: _ =>
          Raise (Exn ValueError (str "too many values to unpack (expected 2)"))
      | _ =>
          Raise (Exn ValueError
            (str "not enough values to unpack (expected 2, got "
             ++ str_of_Z (Z.of_nat (length groups)) ++ str ")"))
      end
  end.

(** ** datetime

    An aware UTC [datetime] is kept as the instant it denotes: the
    proleptic Gregorian ordinal of its day (1 is 0001-01-01), the second of
    the day and the microsecond of the second. *)
Record datetime := { day_ordinal : Z; day_second : Z; microsecond : Z }.

Definition MAXORDINAL : Z := 3652059.

(** [date + delta]: carries are propagated and the day has to stay within
    years 1 to 9999. *)
Definition datetime_add (t : datetime) (delta : timedelta) : result datetime :=
  let us := microsecond t + microseconds delta in
  let s := day_second t + seconds delta + us / 1000000 in
  let d := day_ordinal t + days delta + s / 86400 in
  if (1 <=? d) && (d <=? MAXORDINAL) then
    Ok {| day_ordinal := d; day_second := s mod 86400; microsecond := us mod 1000000 |}
  else Raise (Exn OverflowError (str "date value out of range")).

Definition days_before_month : list Z :=
  [0; 0; 31; 59; 90; 120; 151; 181; 212; 243; 273; 304; 334].

Definition days_in_month_table : list Z :=
  [0; 31; 28; 31; 30; 31; 30; 31; 31; 30; 31; 30; 31].

Definition is_leap (year : Z) : bool :=
  (year mod 4 =? 0) && (negb (year mod 100 =? 0) || (year mod 400 =? 0)).

Definition days_in_month (year month : Z) : Z :=
  if (month =? 2) && is_leap year then 29
  else nth (Z.to_nat month) days_in_month_table 0.

(** ord_to_ymd of the datetime module: year, month and day of an ordinal. *)
Definition ord_to_ymd (ordinal : Z) : Z * Z * Z :=
  let n := ordinal - 1 in
  let n400 := n / 146097 in
  let n := n mod 146097 in
  let n100 := n / 36524 in
  let n := n mod 36524 in
  let n4 := n / 1461 in
  let n := n mod 1461 in
  let n1 := n / 365 in
  let n := n mod 365 in
  let year := n400 * 400 + 1 + n100 * 100 + n4 * 4 + n1 in
  if (n1 =? 4) || (n100 =? 4) then (year - 1, 12, 31)
  else
    let leapyear := (n1 =? 3) && (negb (n4 =? 24) || (n100 =? 3)) in
    let month := Z.shiftr (n + 50) 5 in
    let preceding :=
      nth (Z.to_nat month) days_before_month 0
      + (if (2 <? month) && leapyear then 1 else 0) in
    if n <? preceding then
      let month := month - 1 in
      let preceding := preceding - days_in_month year month in
      (year, month, n - preceding + 1)
    else (year, month, n - preceding + 1).

(** [t.isoformat()] for [t] in UTC. *)
Definition isoformat (t : datetime) : pystr :=
  let '(year, month, day) := ord_to_ymd (day_ordinal t) in
  let hour := day_second t / 3600 in
  let minute := day_second t mod 3600 / 60 in
  let second := day_second t mod 60 in
  zero_padded 4 year ++ str "-" ++ zero_padded 2 month ++ str "-"
  ++ zero_padded 2 day ++ str "T"
  ++ zero_padded 2 hour ++ str ":" ++ zero_padded 2 minute ++ str ":"
  ++ zero_padded 2 second
  ++ (if microsecond t =? 0 then [] else str "." ++ zero_padded 6 (microsecond t))
  ++ str "+00:00".

(** ** Configuration *)

Record Config := {
  MATTERMOST_TOKENS : list pystr;
  ALERTMANAGER_URL : pystr;
  HOST : pystr;
  PORT : Z
}.

(** [os.environ.get(key, default)] *)
Definition environ_get (environ : gmap pystr pystr) (key default : pystr) : pystr :=
  match environ !! key with
  | Some v => v
  | None => default
  end.

(** [[x.strip() for x in s.split(',') if x.strip()]] *)
Definition comma_list (s : pystr) : list pystr :=
  omap (fun x => match strip x with [] => None | y => Some y end) (split 44 s).

(** [Config()], evaluated once when the module is loaded (line 91). It
    raises if PORT is not a numeral. *)
Definition Config_new (environ : gmap pystr pystr) : result Config :=
  let* port := py_int (environ_get environ (str "PORT") (str "7788")) in
  Ok {| MATTERMOST_TOKENS := comma_list (environ_get environ (str "MATTERMOST_TOKENS") []);
        ALERTMANAGER_URL :=
          environ_get environ (str "ALERTMANAGER_URL") (str "http://alertmanager:9093");
        HOST := environ_get environ (str "HOST") (str "0.0.0.0");
        PORT := port |}.

(** [Config.get_approved_users]: it reads the environment of the process
    when it is called. *)
Definition get_approved_users (environ : gmap pystr pystr) : option (list pystr) :=
  match environ !! str "ALLOWED_USERS" with
  | None | Some [] => None
  | Some users => Some (comma_list users)
  end.

Record MattermostCommand := {
  token : pystr;
  team_id : pystr;
  team_domain : pystr;
  channel_id : pystr;
  channel_name : pystr;
  user_id : pystr;
  user_name : pystr;
  command : pystr;
  text : pystr;
  response_url : pystr
}.

(** ** The silence sent to Alertmanager *)

Record matcher := { name : pystr; value : pystr; isRegex : bool }.

Record silence := {
  matchers : list matcher;
  startsAt : pystr;
  endsAt : pystr;
  createdBy : pystr;
  comment : pystr
}.

(** [l[i]] on a list of strings *)
Definition getitem (l : list pystr) (i : nat) : result pystr :=
  match l !! i with
  | Some x => Ok x
  | None => Raise (Exn IndexError (str "list index out of range"))
  end.

(** One entry of the list comprehension of [create_silence]. *)
Definition matcher_of_label (label : pystr) : result matcher :=
  let* n := getitem (split 61 label) 0 in
  let* v := getitem (split 61 label) 1 in
  Ok {| name := n; value := v; isRegex := false |}.

Fixpoint build_matchers (labels : list pystr) : result (list matcher) :=
  match labels with
  | [] => Ok []
  | label :: labels' =>
      let* m := matcher_of_label label in
      let* ms := build_matchers labels' in
      Ok (m :: ms)
  end.

(** ** The world outside: clock, backend, log *)

(** The decoded body of a response, as far as [response.json()["silenceID"]]
    and the f-string that prints the identifier look at it: an object, whose
    members are kept with the text [str()] gives for their value (the value
    itself when it is a JSON string, as the silenceID of Alertmanager is), or
    a value of another Python type. *)
Inductive json :=
| JObject (members : gmap pystr pystr)
| JList | JStr | JInt | JFloat | JBool | JNone.

Record response := {
  status_code : Z;
  status_message : pystr;  (* text of the HTTPStatusError httpx builds for it *)
  body : result json       (* what response.json() gives *)
}.

Record world := {
  now : datetime;                                   (* datetime.now(timezone.utc) *)
  post : pystr → silence → result response          (* client.post(url, json=...) *)
}.

Inductive level := INFO | WARNING | ERROR.

Inductive event :=
| Log (l : level) (message : pystr)
| Post (url : pystr) (data : silence).

(** [response.raise_for_status()] *)
Definition raise_for_status (r : response) : result unit :=
  if (200 <=? status_code r) && (status_code r <=? 299) then Ok tt
  else Raise (Exn HTTPStatusError (status_message r)).

(** [j["silenceID"]] *)
Definition json_getitem (j : json) (key : pystr) : result pystr :=
  match j with
  | JObject members =>
      match members !! key with
      | Some v => Ok v
      | None => Raise (Exn KeyError (str "'" ++ key ++ str "'"))
      end
  | JList => Raise (Exn TypeError (str "list indices must be integers or slices, not str"))
  | JStr => Raise (Exn TypeError (str "string indices must be integers, not 'str'"))
  | JInt => Raise (Exn TypeError (str "'int' object is not subscriptable"))
  | JFloat => Raise (Exn TypeError (str "'float' object is not subscriptable"))
  | JBool => Raise (Exn TypeError (str "'bool' object is not subscriptable"))
  | JNone => Raise (Exn TypeError (str "'NoneType' object is not subscriptable"))
  end.

(** ** create_silence *)

Definition create_silence (config : Config) (w : world)
    (matcher : pystr) (duration : timedelta) (comment username : pystr)
    : list event * result pystr :=
  let start_time := now w in
  match datetime_add start_time duration with
  | Raise e => ([], Raise e)
  | Ok end_time =>
      match build_matchers (split 44 matcher) with
      | Raise e => ([], Raise e)
      | Ok ms =>
          let silence_data :=
            {| matchers := ms;
               startsAt := isoformat start_time;
               endsAt := isoformat end_time;
               createdBy := str "mattermost-bot:" ++ username;
               comment := comment ++ str " (created-by: " ++ username ++ str ")" |} in
          let url := ALERTMANAGER_URL config ++ str "/api/v2/silences" in
          ([Post url silence_data],
           let* response := post w url silence_data in
           let* _ := raise_for_status response in
           let* j := body response in
           json_getitem j (str "silenceID"))
      end
  end.

(** ** handle_silence_command *)

(** The dict a handler returns; FastAPI sends it with status 200. *)
Record reply := { response_type : pystr; reply_text : pystr }.

Inductive http_result :=
| HTTPException (status : Z) (detail : pystr)
| Return (r : reply).

Definition http_status (r : http_result) : Z :=
  match r with
  | HTTPException status _ => status
  | Return _ => 200
  end.

Definition ephemeral (t : pystr) : reply :=
  {| response_type := str "ephemeral"; reply_text := t |}.

Definition usage_text : pystr :=
  str "Usage: /silence <matcher> <duration> <comment>" ++ [10%N]
  ++ str "Example: /silence alertname=HighCPU,severity=critical 2h CPU alert silenced".

Definition not_authorized_text : pystr :=
  str "You are not authorized to create silences.".

(** The text of the reply in the channel; it starts with U+1F515. *)
Definition success_text (silence_id matcher duration_str comment username : pystr)
    : pystr :=
  [128277%N] ++ str " Alert silenced successfully!" ++ [10%N]
  ++ str "Silence ID: " ++ silence_id ++ [10%N]
  ++ str "Matcher: " ++ matcher ++ [10%N]
  ++ str "Duration: " ++ duration_str ++ [10%N]
  ++ str "Comment: " ++ comment ++ [10%N]
  ++ str "Created by: " ++ username.

(** Lines 124 to 144: what the handler does with the three arguments. *)
Definition silence_with (config : Config) (w : world) (username : pystr)
    (matcher duration_str comment : pystr) : list event * result reply :=
  match parse_duration duration_str with
  | Raise e => ([], Raise e)
  | Ok duration =>
      match create_silence config w matcher duration comment username with
      | (events, Raise e) => (events, Raise e)
      | (events, Ok silence_id) =>
          (events ++ [Log INFO (str "Successfully created silence: " ++ silence_id
                                ++ str " for matcher: " ++ matcher)],
           Ok {| response_type := str "in_channel";
                 reply_text := success_text silence_id matcher duration_str
                                 comment username |})
      end
  end.

(** The body of the [try] statement (lines 115 to 144). *)
Definition try_body (config : Config) (w : world) (command : MattermostCommand)
    : list event * result reply :=
  let args := split_whitespace (text command) in
  if Nat.ltb (length args) 3 then ([], Ok (ephemeral usage_text))
  else
    match args with
    | matcher :: duration_str :: rest =>
        silence_with config w (user_name command) matcher duration_str
          (join (str " ") rest)
    | _ => ([], Raise (Exn IndexError (str "list index out of range")))
    end.

(** The [try] statement around that body: a result is returned, and the two
    [except] clauses (lines 146 to 159) turn an exception into a reply. *)
Definition try_except (outcome : list event * result reply)
    : list event * http_result :=
  match outcome with
  | (events, Ok r) => (events, Return r)
  | (events, Raise e) =>
      if is_ValueError e then
        let error_msg := str "Error: " ++ exn_text e in
        (events ++ [Log ERROR (str "Validation error in silence command: "
                               ++ error_msg)],
         Return (ephemeral error_msg))
      else
        let error_msg := str "An error occurred: " ++ exn_text e in
        (events ++ [Log ERROR (str "Error processing silence command")],
         Return (ephemeral error_msg))
  end.

(** The handler from the bound command on (lines 98 to 159): [config] is
    the object built when the process started, [environ] the environment of
    the process at the time of the request. Lines 95 and 96, which bind the
    form of the request to the command, are [bind_command] below, and
    [post_silence] is the whole route. *)
Definition handle_silence_command (config : Config) (environ : gmap pystr pystr)
    (w : world) (command : MattermostCommand) : list event * http_result :=
  if bool_decide (MATTERMOST_TOKENS config = []) then
    ([Log ERROR (str "No Mattermost tokens configured")],
     HTTPException 500 (str "No Mattermost tokens configured"))
  else if negb (bool_decide (token command ∈ MATTERMOST_TOKENS config)) then
    ([Log WARNING (str "Invalid token received from user: " ++ user_name command)],
     HTTPException 401 (str "Invalid token"))
  else
    let approved_users := get_approved_users environ in
    if match approved_users with
       | Some users => negb (bool_decide (user_name command ∈ users))
       | None => false
       end
    then ([], Return (ephemeral not_authorized_text))
    else
      try_except (try_body config w command).

(** The requests sent to the backend in a run. *)
Definition posts (events : list event) : list (pystr * silence) :=
  omap (fun e => match e with Post url d => Some (url, d) | Log _ _ => None end) events.

(** ** The route

    [app.post("/silence")] registers the handler. Lines 95 and 96 read the
    form of the request and bind it to a [MattermostCommand], before the
    token check and outside the [try]. *)

(** A value of the form: a text, or an uploaded file. *)
Inductive form_value := Text (s : pystr) | Upload.

(** A required [str] field of the model, read from the form as the mapping
    that the call unpacks, with one value for a field name. *)
Definition form_text (f : gmap pystr form_value) (key : pystr) : option pystr :=
  match f !! key with
  | Some (Text s) => Some s
  | _ => None
  end.

(** [MattermostCommand] called with the unpacked form: ten required text
    fields; other fields of the form are ignored. [None] stands for the
    [ValidationError] of pydantic. *)
Definition bind_command (f : gmap pystr form_value) : option MattermostCommand :=
  a ← form_text f (str "token");
  b ← form_text f (str "team_id");
  c ← form_text f (str "team_domain");
  d ← form_text f (str "channel_id");
  e ← form_text f (str "channel_name");
  g ← form_text f (str "user_id");
  h ← form_text f (str "user_name");
  i ← form_text f (str "command");
  j ← form_text f (str "text");
  k ← form_text f (str "response_url");
  Some {| token := a; team_id := b; team_domain := c; channel_id := d;
          channel_name := e; user_id := g; user_name := h; command := i;
          text := j; response_url := k |}.

(** What the application answers: what the handler returns or raises as
    [HTTPException], or 500 Internal Server Error for another exception
    that leaves the handler. *)
Inductive route_result :=
| InternalServerError
| Answer (r : http_result).

Definition route_status (r : route_result) : Z :=
  match r with
  | InternalServerError => 500
  | Answer r => http_status r
  end.

(** The handler as the route calls it (lines 94 to 159). *)
Definition post_silence (config : Config) (environ : gmap pystr pystr)
    (w : world) (f : gmap pystr form_value) : list event * route_result :=
  match bind_command f with
  | None => ([], InternalServerError)
  | Some command =>
      ((handle_silence_command config environ w command).1,
       Answer (handle_silence_command config environ w command).2)
  end.

(** ** Examples *)

Definition example_config : Config :=
  {| MATTERMOST_TOKENS := [str "secret"];
     ALERTMANAGER_URL := str "http://alertmanager:9093";
     HOST := str "0.0.0.0";
     PORT := 7788 |}.

Definition example_command (tok user txt : string) : MattermostCommand :=
  {| token := str tok; team_id := str "t1"; team_domain := str "ops";
     channel_id := str "c1"; channel_name := str "alerts"; user_id := str "u1";
     user_name := str user; command := str "/silence"; text := str txt;
     response_url := str "http://mattermost/hooks/1" |}.

(** The form that Mattermost posts for a command. *)
Definition form_of (c : MattermostCommand) : gmap pystr form_value :=
  list_to_map
    [ (str "token", Text (token c)); (str "team_id", Text (team_id c));
      (str "team_domain", Text (team_domain c)); (str "channel_id", Text (channel_id c));
      (str "channel_name", Text (channel_name c)); (str "user_id", Text (user_id c));
      (str "user_name", Text (user_name c)); (str "command", Text (command c));
      (str "text", Text (text c)); (str "response_url", Text (response_url c)) ].

Definition example_form (tok user txt : string) : gmap pystr form_value :=
  form_of (example_command tok user txt).

(** A backend that accepts every silence. *)
Definition accepting_world : world :=
  {| now := {| day_ordinal := 738887; day_second := 11045; microsecond := 0 |};
     post := fun _ _ =>
       Ok {| status_code := 200; status_message := [];
             body := Ok (JObject {[ str "silenceID" := str "abc-123" ]}) |} |}.

(** The text of the [HTTPStatusError] that httpx raises for a 503. *)
Definition service_unavailable (url : pystr) : pystr :=
  str "Server error '503 Service Unavailable' for url '" ++ url ++ str "'" ++ [10%N]
  ++ str "For more information check: https://developer.mozilla.org/en-US/docs/Web/HTTP/Status/503".

(** A backend that answers 503. *)
Definition failing_world : world :=
  {| now := {| day_ordinal := 738887; day_second := 11045; microsecond := 0 |};
     post := fun url _ =>
       Ok {| status_code := 503;
             status_message := service_unavailable url;
             body := Raise (Exn JSONDecodeError (str "Expecting value")) |} |}.

(** ** The vocabulary of the properties *)

(** The strings the duration pattern accepts: digits, a unit letter, and
    possibly the newline that [$] lets pass. *)
Definition digits_and_unit (ds : pystr) (u : N) : Prop :=
  ds ≠ [] ∧ Forall (fun c => is_decimal c = true) ds ∧ is_unit_letter u = true.

(** The number that a numeral denotes, least significant digit first. *)
Fixpoint value_of_reversed (reversed : pystr) : Z :=
  match reversed with
  | [] => 0
  | c :: more => default 0 (decimal_value c) + 10 * value_of_reversed more
  end.

Definition numeral_value (ds : pystr) : Z := value_of_reversed (rev ds).

Definition all_decimal (ds : pystr) : Prop := Forall (fun c => is_decimal c = true) ds.

(** Seconds in one unit of a duration letter. *)
Definition unit_seconds (u : N) : Z :=
  if (u =? 109)%N then 60                (* m *)
  else if (u =? 104)%N then 3600         (* h *)
  else if (u =? 100)%N then 86400        (* d *)
  else if (u =? 119)%N then 604800       (* w *)
  else 0.

(** The span of [total] seconds, as [timedelta] normalizes it. *)
Definition span_of_seconds (total : Z) : timedelta :=
  {| days := total / 86400; seconds := total mod 86400; microseconds := 0 |}.

(** The longest span a [timedelta] holds is 999999999 days and less than
    a day more. *)
Definition span_limit : Z := 86400 * (MAX_DELTA_DAYS + 1).

(** What the duration parser owes its caller: a numeral of at most 4300
    digits and a unit letter give the span of that many units, as long as
    the span is one that [timedelta] holds; a string that is neither such a
    text nor such a text before a final newline is refused. *)
Inductive duration_outcome : pystr → result timedelta → Prop :=
| duration_parsed ds u :
    digits_and_unit ds u →
    (length ds ≤ int_max_str_digits)%nat →
    numeral_value ds * unit_seconds u < span_limit →
    duration_outcome (ds ++ [u])
      (Ok (span_of_seconds (numeral_value ds * unit_seconds u)))
| duration_refused s :
    (∀ ds u, digits_and_unit ds u → s ≠ ds ++ [u] ∧ s ≠ ds ++ [u; 10%N]) →
    duration_outcome s (Raise invalid_duration_format).

(** The token check lets the request through. *)
Definition authenticated (config : Config) (command : MattermostCommand) : Prop :=
  MATTERMOST_TOKENS config ≠ [] ∧ token command ∈ MATTERMOST_TOKENS config.

(** The allow-list check lets the request through. *)
Definition authorized (environ : gmap pystr pystr) (command : MattermostCommand)
    : Prop :=
  match get_approved_users environ with
  | Some users => user_name command ∈ users
  | None => True
  end.

(** The text that an exception leaves in the reply. *)
Definition error_msg (e : exn) : pystr :=
  (if is_ValueError e then str "Error: " else str "An error occurred: ")
  ++ exn_text e.

Definition index_error : exn := Exn IndexError (str "list index out of range").

(** The matcher that a label gives: its name is the text before the first
    '=' and its value the text from there to the next '=' or to the end. *)
Definition matcher_of (label : pystr) (m : matcher) : Prop :=
  isRegex m = false ∧ (61%N ∉ name m) ∧ (61%N ∉ value m)
  ∧ (label = name m ++ 61%N :: value m
     ∨ ∃ more, label = name m ++ 61%N :: value m ++ 61%N :: more).

(** The instant of a datetime and the length of a span, in microseconds. *)
Definition instant (t : datetime) : Z :=
  (day_ordinal t * 86400 + day_second t) * 1000000 + microsecond t.

Definition span (d : timedelta) : Z :=
  (days d * 86400 + seconds d) * 1000000 + microseconds d.

Definition well_formed (t : datetime) : Prop :=
  1 ≤ day_ordinal t ≤ MAXORDINAL ∧ 0 ≤ day_second t < 86400
  ∧ 0 ≤ microsecond t < 1000000.

Definition two_hours : timedelta := {| days := 0; seconds := 7200; microseconds := 0 |}.

Definition example_url : pystr := str "http://alertmanager:9093/api/v2/silences".

Definition example_silence : silence :=
  {| matchers := [ {| name := str "alertname"; value := str "X"; isRegex := false |} ];
     startsAt := str "2024-01-02T03:04:05+00:00";
     endsAt := str "2024-01-02T05:04:05+00:00";
     createdBy := str "mattermost-bot:alice";
     comment := str "down (created-by: alice)" |}.

Definition unconfigured : Config :=
  {| MATTERMOST_TOKENS := [];
     ALERTMANAGER_URL := str "http://alertmanager:9093";
     HOST := str "0.0.0.0";
     PORT := 7788 |}.

Definition startup_environ : gmap pystr pystr :=
  {[ str "MATTERMOST_TOKENS" := str "secret"; str "ALLOWED_USERS" := str "alice,bob" ]}.


(** The failures that the handler meets once the text has three words or
    more: the duration is refused, a label has no '=', the request to
    Alertmanager fails in transport, or its answer is not a 2xx. *)
Inductive failure (config : Config) (w : world) (command : MattermostCommand)
    : exn → Prop :=
| duration_failure matcher_text duration_str word words e :
    split_whitespace (text command) = matcher_text :: duration_str :: word :: words →
    parse_duration duration_str = Raise e →
    failure config w command e
| label_failure matcher_text duration_str word words duration end_time label :
    split_whitespace (text command) = matcher_text :: duration_str :: word :: words →
    parse_duration duration_str = Ok duration →
    datetime_add (now w) duration = Ok end_time →
    label ∈ split 44%N matcher_text → 61%N ∉ label →
    failure config w command index_error
| transport_failure matcher_text duration_str word words duration url data e :
    split_whitespace (text command) = matcher_text :: duration_str :: word :: words →
    parse_duration duration_str = Ok duration →
    (create_silence config w matcher_text duration (join (str " ") (word :: words))
       (user_name command)).1 = [Post url data] →
    post w url data = Raise e →
    failure config w command e
| status_failure matcher_text duration_str word words duration url data r :
    split_whitespace (text command) = matcher_text :: duration_str :: word :: words →
    parse_duration duration_str = Ok duration →
    (create_silence config w matcher_text duration (join (str " ") (word :: words))
       (user_name command)).1 = [Post url data] →
    post w url data = Ok r →
    ¬ (200 ≤ status_code r ≤ 299) →
    failure config w command (Exn HTTPStatusError (status_message r)).

(** A span as [parse_duration] returns them: whole seconds, not negative,
    within the range of [timedelta]. *)
Definition whole_span (d : timedelta) : Prop :=
  0 ≤ days d ≤ MAX_DELTA_DAYS ∧ 0 ≤ seconds d < 86400 ∧ microseconds d = 0.

(** A word as [str.split()] yields them: not empty and without a blank. *)
Definition blank_free (w : pystr) : Prop := Forall (fun c => is_space c = false) w.

Definition is_word (w : pystr) : Prop := w ≠ [] ∧ blank_free w.

(** A text that [strip] keeps as it is: not empty, no blank at either end. *)
Definition trimmed (w : pystr) : Prop :=
  (∃ c, head w = Some c ∧ is_space c = false)
  ∧ (∃ c, last w = Some c ∧ is_space c = false).

(** An entry of a comma-separated list of the environment. *)
Definition list_entry (w : pystr) : Prop := trimmed w ∧ 44%N ∉ w.

(** A text of blanks only. *)
Definition blank (s : pystr) : Prop := Forall (fun c => is_space c = true) s.

(** Where the silences go. *)
Definition silences_endpoint (config : Config) : pystr :=
  ALERTMANAGER_URL config ++ str "/api/v2/silences".

(** Alertmanager takes the silence: the answer has a 2xx status and its
    body is an object with the identifier. *)
Definition accepted (w : world) (url : pystr) (data : silence) (silence_id : pystr)
    : Prop :=
  ∃ r members,
    post w url data = Ok r ∧ 200 ≤ status_code r ≤ 299
    ∧ body r = Ok (JObject members) ∧ members !! str "silenceID" = Some silence_id.

(** The reply in the channel after a silence was created. *)
Definition success_reply (silence_id matcher_text duration_str comment_text username : pystr)
    : reply :=
  {| response_type := str "in_channel";
     reply_text := success_text silence_id matcher_text duration_str comment_text
                     username |}.

(** A text without '=', ',' and blanks. *)
Definition no_separator (s : pystr) : Prop :=
  Forall (fun c => c ≠ 61%N ∧ c ≠ 44%N ∧ is_space c = false) s.

(** The first instant after the last day that a [datetime] holds. *)
Definition end_of_time : Z := (MAXORDINAL + 1) * 86400 * 1000000.

(** A backend that answers 200 with an empty JSON object. *)
Definition forgetful_world : world :=
  {| now := {| day_ordinal := 738887; day_second := 11045; microsecond := 0 |};
     post := fun _ _ =>
       Ok {| status_code := 200; status_message := []; body := Ok (JObject ∅) |} |}.

Example parse_2h : parse_duration (str "2h") = Ok {| days := 0; seconds := 7200; microseconds := 0 |}.
Proof. vm_compute. reflexivity. Qed.

Example isoformat_2024 :
  isoformat {| day_ordinal := 738887; day_second := 11045; microsecond := 7 |}
  = str "2024-01-02T03:04:05.000007+00:00".
Proof. vm_compute. reflexivity. Qed.

Example handler_happy_path :
  handle_silence_command example_config ∅ accepting_world
    (example_command "secret" "alice"
       "alertname=HighCPU,severity=critical 2h CPU alert silenced")
  = ([Post (str "http://alertmanager:9093/api/v2/silences")
        {| matchers := [ {| name := str "alertname"; value := str "HighCPU"; isRegex := false |};
                         {| name := str "severity"; value := str "critical"; isRegex := false |} ];
           startsAt := str "2024-01-02T03:04:05+00:00";
           endsAt := str "2024-01-02T05:04:05+00:00";
           createdBy := str "mattermost-bot:alice";
           comment := str "CPU alert silenced (created-by: alice)" |};
      Log INFO (str "Successfully created silence: abc-123 for matcher: alertname=HighCPU,severity=critical")],
     Return {| response_type := str "in_channel";
               reply_text := success_text (str "abc-123")
                 (str "alertname=HighCPU,severity=critical") (str "2h")
                 (str "CPU alert silenced") (str "alice") |}).
Proof. vm_compute. reflexivity. Qed.

Example handler_backend_503 :
  handle_silence_command example_config ∅ failing_world
    (example_command "secret" "alice" "alertname=X 2h down")
  = ([Post (str "http://alertmanager:9093/api/v2/silences")
        {| matchers := [ {| name := str "alertname"; value := str "X"; isRegex := false |} ];
           startsAt := str "2024-01-02T03:04:05+00:00";
           endsAt := str "2024-01-02T05:04:05+00:00";
           createdBy := str "mattermost-bot:alice";
           comment := str "down (created-by: alice)" |};
      Log ERROR (str "Error processing silence command")],
     Return (ephemeral (str "An error occurred: "
                        ++ service_unavailable (str "http://alertmanager:9093/api/v2/silences")))).
Proof. vm_compute. reflexivity. Qed.

(** * Properties *)

(** ** Characters *)

Lemma is_space_false_of_decimal c : is_decimal c = true → is_space c = false.
Proof.
  intros Hd. unfold is_space. apply bool_decide_eq_false. intros Hin.
  assert (Hall : Forall (fun w => is_decimal w = false) whitespace).
  { unfold whitespace. repeat (constructor; [vm_compute; reflexivity|]).
    constructor. }
  rewrite Forall_forall in Hall. rewrite (Hall _ Hin) in Hd. discriminate.
Qed.

Lemma unit_letter_cases u :
  is_unit_letter u = true → u = 109%N ∨ u = 104%N ∨ u = 100%N ∨ u = 119%N.
Proof.
  unfold is_unit_letter. intros H. apply bool_decide_eq_true in H.
  change (str "mhdw") with [109%N; 104%N; 100%N; 119%N] in H.
  rewrite !elem_of_cons, elem_of_nil in H. tauto.
Qed.

Lemma unit_letter_not_decimal u : is_unit_letter u = true → is_decimal u = false.
Proof.
  intros H. destruct (unit_letter_cases u H) as [->|[->|[->| ->]]]; reflexivity.
Qed.

Lemma decimal_in_range zs c d : decimal_in zs c = Some d → 0 ≤ d < 10.
Proof.
  induction zs as [|z zs IH]; simpl; [discriminate|].
  destruct ((z <=? c)%N && (c <? z + 10)%N) eqn:E; [|exact IH].
  intros [= <-]. apply andb_true_iff in E as [E1 E2].
  apply N.leb_le in E1. apply N.ltb_lt in E2. lia.
Qed.

Lemma decimal_value_range c d : decimal_value c = Some d → 0 ≤ d < 10.
Proof. apply decimal_in_range. Qed.

(** ** The matcher *)

Section PlusFrom.
Context {A : Type} (p : N → bool).

Lemma plus_from_longest pos ds rest (k : nat → pystr → option A) r :
  ds ≠ [] →
  Forall (fun c => p c = true) ds →
  match rest with c :: _ => p c = false | [] => True end →
  k (pos + length ds)%nat rest = Some r →
  plus_from p pos (ds ++ rest) k = Some r.
Proof.
  intros Hne Hall Hrest. revert pos.
  induction Hall as [|c ds Hc Hall IH]; [done|]. intros pos Hk.
  simpl. rewrite Hc. destruct ds as [|c' ds'].
  - simpl in *. replace (pos + 1)%nat with (S pos) in Hk by lia.
    destruct rest as [|c' rest']; simpl; [exact Hk|].
    rewrite Hrest. exact Hk.
  - rewrite IH; [done|done|].
    rewrite <- Hk. f_equal. simpl. lia.
Qed.

Lemma plus_from_inv pos s (k : nat → pystr → option A) r :
  plus_from p pos s k = Some r →
  ∃ ds rest, s = ds ++ rest ∧ ds ≠ [] ∧ Forall (fun c => p c = true) ds
             ∧ k (pos + length ds)%nat rest = Some r.
Proof.
  revert pos. induction s as [|c s IH]; intros pos; simpl; [discriminate|].
  destruct (p c) eqn:Hc; [|discriminate].
  destruct (plus_from p (S pos) s k) as [r'|] eqn:E.
  - intros [= ->]. destruct (IH _ E) as (ds & rest & -> & Hne & Hall & Hk).
    exists (c :: ds), rest. repeat split; [done|by constructor|].
    rewrite <- Hk. f_equal. simpl. lia.
  - intros Hk. exists [c], s. repeat split; [done|by repeat constructor|].
    rewrite <- Hk. f_equal. simpl. lia.
Qed.
End PlusFrom.

Lemma re_match_duration ds u tail :
  digits_and_unit ds u → tail = [] ∨ tail = [10%N] →
  re_match duration_pattern (ds ++ u :: tail) = Some [ds; [u]].
Proof.
  intros (Hne & Hall & Hu) Htail. unfold re_match, duration_pattern. simpl.
  apply plus_from_longest; [done|done|by apply unit_letter_not_decimal|].
  simpl. rewrite Hu. rewrite Nat.sub_0_r, take_app_length.
  replace (S (length ds) - length ds)%nat with 1%nat by lia.
  destruct Htail as [-> | ->]; reflexivity.
Qed.

Lemma re_match_duration_inv s groups :
  re_match duration_pattern s = Some groups →
  ∃ ds u tail, digits_and_unit ds u ∧ (tail = [] ∨ tail = [10%N])
               ∧ s = ds ++ u :: tail ∧ groups = [ds; [u]].
Proof.
  unfold re_match, duration_pattern. simpl. intros H.
  apply plus_from_inv in H as (ds & rest & -> & Hne & Hall & Hk).
  destruct rest as [|u tail]; [discriminate|].
  destruct (is_unit_letter u) eqn:Hu; [|discriminate].
  replace (0 + length ds - 0)%nat with (length ds) in Hk by lia.
  replace (S (0 + length ds) - (0 + length ds))%nat with 1%nat in Hk by lia.
  rewrite take_app_length in Hk. simpl in Hk.
  exists ds, u, tail. split; [done|].
  destruct tail as [|c [|c' tail']]; [injection Hk as <-; auto| |discriminate].
  destruct (N.eqb_spec c 10); [subst c; injection Hk as <-; auto|discriminate].
Qed.

(** ** int on the digits that the pattern captures *)

Lemma is_decimal_value c : is_decimal c = true → ∃ d, decimal_value c = Some d.
Proof. unfold is_decimal. destruct (decimal_value c); [eauto|discriminate]. Qed.

Lemma is_int_space_is_space c : is_int_space c = true → is_space c = true.
Proof.
  unfold is_int_space. destruct (c <? 127)%N; [|done].
  intros Hin%bool_decide_eq_true.
  repeat (apply elem_of_cons in Hin as [-> | Hin]; [reflexivity|]).
  by apply elem_of_nil in Hin.
Qed.

Lemma is_int_space_false_of_decimal c : is_decimal c = true → is_int_space c = false.
Proof.
  intros Hc. destruct (is_int_space c) eqn:Hspace; [|done].
  apply is_int_space_is_space in Hspace.
  by rewrite (is_space_false_of_decimal c Hc) in Hspace.
Qed.

Lemma skip_int_space_decimal ds : all_decimal ds → skip_int_space ds = ds.
Proof.
  intros [|c ds' Hc _]; [reflexivity|].
  simpl. by rewrite (is_int_space_false_of_decimal c Hc).
Qed.

Lemma scan_digits_decimal ds :
  all_decimal ds →
  scan_digits false ds = Some (map (fun c => default 0 (decimal_value c)) ds, []).
Proof.
  induction 1 as [|c ds Hc _ IH]; [reflexivity|].
  simpl. destruct (is_decimal_value c Hc) as [d Hd]. rewrite Hd, IH. reflexivity.
Qed.

Lemma of_digits_numeral_value ds :
  of_digits (map (fun c => default 0 (decimal_value c)) ds) = numeral_value ds.
Proof.
  unfold of_digits, numeral_value.
  induction ds as [|c ds IH] using rev_ind; [reflexivity|].
  rewrite map_app, fold_left_app, rev_unit. simpl. rewrite IH. lia.
Qed.

Lemma numeral_value_nonneg ds : 0 ≤ numeral_value ds.
Proof.
  unfold numeral_value. induction (rev ds) as [|c l IH]; simpl; [lia|].
  destruct (decimal_value c) as [d|] eqn:E; simpl; [|lia].
  apply decimal_value_range in E. lia.
Qed.

Lemma py_int_decimal ds :
  ds ≠ [] → all_decimal ds →
  py_int ds
  = if Nat.ltb int_max_str_digits (length ds) then
      Raise (Exn ValueError
        (str "Exceeds the limit (4300 digits) for integer string conversion: value has "
         ++ str_of_Z (Z.of_nat (length ds))
         ++ str " digits; use sys.set_int_max_str_digits() to increase the limit"))
    else Ok (numeral_value ds).
Proof.
  intros Hne H. unfold py_int. rewrite (skip_int_space_decimal ds H).
  destruct ds as [|c ds']; [done|].
  assert (Hc : is_decimal c = true) by (inversion H; assumption).
  destruct (c =? 45)%N eqn:E1.
  { apply N.eqb_eq in E1. subst c. discriminate Hc. }
  destruct (c =? 43)%N eqn:E2.
  { apply N.eqb_eq in E2. subst c. discriminate Hc. }
  rewrite bool_decide_eq_false_2.
  2: { simpl. intros [= ->]. discriminate Hc. }
  rewrite (scan_digits_decimal (c :: ds') H), length_map.
  destruct (Nat.ltb int_max_str_digits (length (c :: ds'))); [reflexivity|].
  rewrite <- (of_digits_numeral_value (c :: ds')).
  cbn [map skip_int_space]. f_equal. lia.
Qed.

Lemma py_int_numeral ds :
  ds ≠ [] → all_decimal ds → (length ds ≤ int_max_str_digits)%nat →
  py_int ds = Ok (numeral_value ds).
Proof.
  intros Hne H Hlen. rewrite (py_int_decimal ds Hne H).
  destruct (Nat.ltb_spec int_max_str_digits (length ds)); [lia|done].
Qed.

Lemma py_int_too_long ds :
  ds ≠ [] → all_decimal ds → (int_max_str_digits < length ds)%nat →
  ∃ msg, py_int ds = Raise (Exn ValueError msg).
Proof.
  intros Hne H Hlen. rewrite (py_int_decimal ds Hne H).
  destruct (Nat.ltb_spec int_max_str_digits (length ds)); [eauto|lia].
Qed.

Example numeral_value_007 : numeral_value (str "007") = 7.
Proof. reflexivity. Qed.

(** ** timedelta *)

Lemma timedelta_new_whole_seconds d s mi h w :
  let total := s + 60 * mi + 3600 * h + 86400 * (d + 7 * w) in
  0 ≤ total < span_limit →
  timedelta_new d s 0 0 mi h w = Ok (span_of_seconds total).
Proof.
  intros total Hrange. unfold timedelta_new, span_of_seconds, span_limit, MAX_DELTA_DAYS in *.
  fold total.
  replace (0 + 1000 * 0 + 1000000 * total) with (total * 1000000) by lia.
  rewrite Z.div_mul, Z.mod_mul by lia.
  assert (Hd : 0 ≤ total / 86400 ≤ 999999999).
  { split; [apply Z.div_pos; lia|]. apply Z.lt_succ_r, Z.div_lt_upper_bound; lia. }
  destruct (Z.ltb_spec (total / 86400) (-2147483648)); [lia|].
  destruct (Z.ltb_spec 2147483647 (total / 86400)); [lia|].
  destruct (Z.ltb_spec 999999999 (Z.abs (total / 86400))); [lia|].
  reflexivity.
Qed.

Lemma timedelta_new_overflow d s mi h w :
  let total := s + 60 * mi + 3600 * h + 86400 * (d + 7 * w) in
  span_limit ≤ total →
  ∃ msg, timedelta_new d s 0 0 mi h w = Raise (Exn OverflowError msg).
Proof.
  intros total Hrange. unfold timedelta_new, span_limit, MAX_DELTA_DAYS in *.
  fold total.
  replace (0 + 1000 * 0 + 1000000 * total) with (total * 1000000) by lia.
  rewrite Z.div_mul by lia.
  assert (Hd : 999999999 < total / 86400).
  { assert (1000000000 ≤ total / 86400); [|lia].
    apply Z.div_le_lower_bound; lia. }
  destruct (_ || _); [eauto|].
  destruct (Z.ltb_spec 999999999 (Z.abs (total / 86400))); [eauto|lia].
Qed.

Lemma units_lookup u :
  is_unit_letter u = true →
  ∃ name, units !! [u] = Some name
          ∧ ∀ n, timedelta_kw name n
                 = if (u =? 100)%N then timedelta_new n 0 0 0 0 0 0
                   else if (u =? 119)%N then timedelta_new 0 0 0 0 0 0 n
                   else if (u =? 104)%N then timedelta_new 0 0 0 0 0 n 0
                   else timedelta_new 0 0 0 0 n 0 0.
Proof.
  intros H. destruct (unit_letter_cases u H) as [->|[->|[->| ->]]];
    eexists; (split; [vm_compute; reflexivity|intros n; reflexivity]).
Qed.

Lemma timedelta_of_unit u n :
  is_unit_letter u = true → 0 ≤ n →
  ∃ name, units !! [u] = Some name
          ∧ (n * unit_seconds u < span_limit →
             timedelta_kw name n = Ok (span_of_seconds (n * unit_seconds u)))
          ∧ (span_limit ≤ n * unit_seconds u →
             ∃ msg, timedelta_kw name n = Raise (Exn OverflowError msg)).
Proof.
  intros H Hn. destruct (units_lookup u H) as (name & Hname & Hkw).
  exists name. split; [exact Hname|]. rewrite Hkw.
  destruct (unit_letter_cases u H) as [->|[->|[->| ->]]]; cbn [N.eqb Pos.eqb];
    unfold unit_seconds; cbn [N.eqb Pos.eqb]; split; intros Hr.
  all: first
    [ rewrite timedelta_new_whole_seconds; [f_equal; f_equal; lia | cbv zeta; lia]
    | apply timedelta_new_overflow; cbv zeta; lia ].
Qed.

(** ** parse_duration *)

(** What [parse_duration] does once the pattern has matched. *)
Lemma parse_duration_matched ds u tail :
  digits_and_unit ds u → tail = [] ∨ tail = [10%N] →
  ∃ name, units !! [u] = Some name
          ∧ parse_duration (ds ++ u :: tail)
            = (let* n := py_int ds in timedelta_kw name n).
Proof.
  intros Hdu Htail. destruct (units_lookup u) as (name & Hname & _); [apply Hdu|].
  exists name. split; [exact Hname|].
  unfold parse_duration. rewrite (re_match_duration ds u tail Hdu Htail).
  rewrite Hname. reflexivity.
Qed.

Lemma parse_duration_in_range ds u tail :
  digits_and_unit ds u → tail = [] ∨ tail = [10%N] →
  (length ds ≤ int_max_str_digits)%nat →
  numeral_value ds * unit_seconds u < span_limit →
  parse_duration (ds ++ u :: tail)
  = Ok (span_of_seconds (numeral_value ds * unit_seconds u)).
Proof.
  intros Hdu Htail Hlen Hfit.
  destruct (timedelta_of_unit u (numeral_value ds)) as (name & Hname & Hok & _);
    [apply Hdu|apply numeral_value_nonneg|].
  destruct (parse_duration_matched ds u tail Hdu Htail) as (name' & Hname' & ->).
  rewrite Hname in Hname'. injection Hname' as <-.
  destruct Hdu as (Hne & Hall & Hu).
  rewrite (py_int_numeral ds Hne Hall Hlen). simpl. auto.
Qed.

Lemma parse_duration_overflow ds u tail :
  digits_and_unit ds u → tail = [] ∨ tail = [10%N] →
  (length ds ≤ int_max_str_digits)%nat →
  span_limit ≤ numeral_value ds * unit_seconds u →
  ∃ msg, parse_duration (ds ++ u :: tail) = Raise (Exn OverflowError msg).
Proof.
  intros Hdu Htail Hlen Hfit.
  destruct (timedelta_of_unit u (numeral_value ds)) as (name & Hname & _ & Hov);
    [apply Hdu|apply numeral_value_nonneg|].
  destruct (parse_duration_matched ds u tail Hdu Htail) as (name' & Hname' & ->).
  rewrite Hname in Hname'. injection Hname' as <-.
  destruct Hdu as (Hne & Hall & Hu).
  rewrite (py_int_numeral ds Hne Hall Hlen). simpl. auto.
Qed.

Lemma parse_duration_no_match s :
  (∀ ds u, digits_and_unit ds u → s ≠ ds ++ [u] ∧ s ≠ ds ++ [u; 10%N]) →
  parse_duration s = Raise invalid_duration_format.
Proof.
  intros Hno. unfold parse_duration.
  destruct (re_match duration_pattern s) as [groups|] eqn:E; [|reflexivity].
  apply re_match_duration_inv in E as (ds & u & tail & Hdu & Htail & -> & _).
  destruct (Hno ds u Hdu) as [H1 H2]. destruct Htail as [-> | ->]; done.
Qed.

(** Digits, a unit letter and one final newline are parsed as the same
    text without the newline: [$] of [re.match] also matches before a
    newline that ends the string, and the groups do not hold it. *)
Lemma parse_duration_final_newline ds u :
  digits_and_unit ds u →
  parse_duration (ds ++ [u; 10%N]) = parse_duration (ds ++ [u]).
Proof.
  intros Hdu.
  destruct (parse_duration_matched ds u [10%N] Hdu) as (name & Hname & ->); [auto|].
  destruct (parse_duration_matched ds u [] Hdu) as (name' & Hname' & ->); [auto|].
  rewrite Hname in Hname'. by injection Hname' as <-.
Qed.

Lemma digits_and_unit_str ds u :
  forallb is_decimal ds = true → ds ≠ [] → is_unit_letter u = true →
  digits_and_unit ds u.
Proof.
  intros H Hne Hu. repeat split; [done| |done].
  apply Forall_forall. intros c Hc. rewrite forallb_forall in H.
  apply H. by apply list_elem_of_In.
Qed.

(** C1, as amended: for every string made of 1 to 4300 decimal digits
    (leading zeros allowed) and a unit letter among m, h, d, w, whose value
    in that unit stays below 1000000000 days, [parse_duration] returns the
    span of that many minutes, hours, days or weeks; for every string that
    is neither digits followed by a unit letter nor such a text followed by
    one newline, it raises the invalid-format [ValueError]. *)
Theorem parse_duration_meets_outcome s r :
  duration_outcome s r → parse_duration s = r.
Proof.
  intros [ds u Hdu Hlen Hfit | s' Hno].
  - apply (parse_duration_in_range ds u []); auto.
  - by apply parse_duration_no_match.
Qed.

Lemma parse_duration_meets_outcome_witness :
  parse_duration (str "007h") = Ok {| days := 0; seconds := 25200; microseconds := 0 |}.
Proof.
  apply (parse_duration_meets_outcome (str "007h")).
  apply (duration_parsed (str "007") 104%N).
  - apply digits_and_unit_str; [reflexivity|discriminate|reflexivity].
  - vm_compute. lia.
  - vm_compute. reflexivity.
Defined.

(** C1 as stated fails: a text of digits and a unit letter that
    [parse_duration] does not turn into a span. *)
Lemma parse_duration_huge_count_no_span :
  digits_and_unit (str "999999999999") 100%N
  ∧ parse_duration (str "999999999999d")
    = Raise (Exn OverflowError (str "Python int too large to convert to C int"))
  ∧ ¬ ∃ td, parse_duration (str "999999999999d") = Ok td.
Proof.
  split; [apply digits_and_unit_str; [reflexivity|discriminate|reflexivity]|].
  assert (H : parse_duration (str "999999999999d")
              = Raise (Exn OverflowError (str "Python int too large to convert to C int")))
    by (vm_compute; reflexivity).
  split; [exact H|]. intros [td Htd]. rewrite H in Htd. discriminate.
Qed.

(** C8, as amended: for every duration text whose numeral is zero ("0h",
    "0m", "000d"; at most 4300 digits), [parse_duration] returns the empty
    span. *)
Theorem parse_duration_zero ds u :
  digits_and_unit ds u →
  (length ds ≤ int_max_str_digits)%nat →
  numeral_value ds = 0 →
  parse_duration (ds ++ [u]) = Ok {| days := 0; seconds := 0; microseconds := 0 |}.
Proof.
  intros Hdu Hlen Hzero.
  rewrite (parse_duration_in_range ds u []); auto.
  - rewrite Hzero. reflexivity.
  - rewrite Hzero. reflexivity.
Qed.

Lemma parse_duration_zero_witness :
  parse_duration (str "000d") = Ok {| days := 0; seconds := 0; microseconds := 0 |}.
Proof.
  apply (parse_duration_zero (str "000") 100%N).
  - apply digits_and_unit_str; [reflexivity|discriminate|reflexivity].
  - vm_compute. lia.
  - reflexivity.
Defined.

(** C8 as stated fails: "0h" is parsed and no error is raised. *)
Lemma parse_duration_0h_accepted :
  numeral_value (str "0") = 0
  ∧ parse_duration (str "0h") = Ok {| days := 0; seconds := 0; microseconds := 0 |}
  ∧ parse_duration (str "0h") ≠ Raise invalid_duration_format.
Proof.
  split; [reflexivity|].
  assert (H : parse_duration (str "0h")
              = Ok {| days := 0; seconds := 0; microseconds := 0 |})
    by (vm_compute; reflexivity).
  split; [exact H|]. rewrite H. discriminate.
Qed.

(** ** The handler *)

Lemma handler_checked config environ w command :
  authenticated config command → authorized environ command →
  handle_silence_command config environ w command
  = try_except (try_body config w command).
Proof.
  intros [Hne Hin] Hauth. unfold handle_silence_command, authorized in *.
  rewrite (bool_decide_eq_false_2 _ Hne), (bool_decide_eq_true_2 _ Hin). simpl.
  destruct (get_approved_users environ) as [users|]; [|reflexivity].
  by rewrite (bool_decide_eq_true_2 _ Hauth).
Qed.

Lemma handler_not_authenticated config environ w command :
  ¬ authenticated config command →
  handle_silence_command config environ w command
  = if bool_decide (MATTERMOST_TOKENS config = [])
    then ([Log ERROR (str "No Mattermost tokens configured")],
          HTTPException 500 (str "No Mattermost tokens configured"))
    else ([Log WARNING (str "Invalid token received from user: " ++ user_name command)],
          HTTPException 401 (str "Invalid token")).
Proof.
  intros Hno. unfold handle_silence_command.
  destruct (bool_decide_reflect (MATTERMOST_TOKENS config = [])) as [|Hne]; [done|].
  destruct (bool_decide_reflect (token command ∈ MATTERMOST_TOKENS config)) as [Hin|]; [|done].
  destruct Hno. by split.
Qed.

Lemma handler_not_authorized config environ w command users :
  authenticated config command →
  get_approved_users environ = Some users → user_name command ∉ users →
  handle_silence_command config environ w command
  = ([], Return (ephemeral not_authorized_text)).
Proof.
  intros [Hne Hin] Husers Hout. unfold handle_silence_command.
  rewrite (bool_decide_eq_false_2 _ Hne), (bool_decide_eq_true_2 _ Hin), Husers. simpl.
  by rewrite (bool_decide_eq_false_2 _ Hout).
Qed.

Lemma try_except_raise events e :
  try_except (events, Raise e)
  = (events ++ [Log ERROR (if is_ValueError e
                           then str "Validation error in silence command: " ++ error_msg e
                           else str "Error processing silence command")],
     Return (ephemeral (error_msg e))).
Proof. unfold try_except, error_msg. by destruct (is_ValueError e). Qed.

Lemma try_except_status outcome : http_status (try_except outcome).2 = 200.
Proof.
  destruct outcome as [events [r|e]]; [reflexivity|].
  by rewrite try_except_raise.
Qed.

Lemma posts_app events events' : posts (events ++ events') = posts events ++ posts events'.
Proof. apply omap_app. Qed.

Lemma try_except_posts outcome : posts (try_except outcome).1 = posts outcome.1.
Proof.
  destruct outcome as [events [r|e]]; [reflexivity|].
  rewrite try_except_raise. simpl. rewrite posts_app. simpl. apply app_nil_r.
Qed.

(** ** split on one character *)

Lemma split_not_nil sep s : split sep s ≠ [].
Proof.
  destruct s as [|c s]; simpl; [done|].
  destruct (c =? sep)%N; [done|]. by destruct (split sep s).
Qed.

Lemma split_no_sep sep s : sep ∉ s → split sep s = [s].
Proof.
  induction s as [|c s IH]; intros Hno; simpl; [done|].
  apply not_elem_of_cons in Hno as [Hc Hs].
  destruct (N.eqb_spec c sep) as [->|_]; [done|].
  by rewrite (IH Hs).
Qed.

Lemma split_at_first sep a b :
  sep ∉ a → split sep (a ++ sep :: b) = a :: split sep b.
Proof.
  induction a as [|c a IH]; intros Hno; simpl.
  - by rewrite N.eqb_refl.
  - apply not_elem_of_cons in Hno as [Hc Ha].
    destruct (N.eqb_spec c sep) as [->|_]; [done|].
    by rewrite (IH Ha).
Qed.

Lemma first_sep (sep : N) (s : pystr) : sep ∉ s ∨ ∃ a b, s = a ++ sep :: b ∧ sep ∉ a.
Proof.
  induction s as [|c s [Hno | (a & b & -> & Ha)]].
  - left. apply not_elem_of_nil.
  - destruct (N.eqb_spec c sep) as [->|Hc].
    + right. exists [], s. split; [done|apply not_elem_of_nil].
    + left. apply not_elem_of_cons. split; [congruence|done].
  - right. destruct (N.eqb_spec c sep) as [->|Hc].
    + exists [], (a ++ sep :: b). split; [done|apply not_elem_of_nil].
    + exists (c :: a), b. split; [done|].
      apply not_elem_of_cons. split; [congruence|done].
Qed.

Lemma elem_of_middle (sep : N) a b : sep ∈ a ++ sep :: b.
Proof. apply elem_of_app. right. apply elem_of_cons. by left. Qed.

(** The pieces of [split] hold no separator, and joining them with the
    separator gives the string back. *)
Lemma split_pieces (sep : N) s : Forall (fun piece : list N => sep ∉ piece) (split sep s).
Proof.
  induction s as [|c s IH]; simpl.
  - constructor; [apply not_elem_of_nil|constructor].
  - destruct (N.eqb_spec c sep) as [->|Hc].
    + constructor; [apply not_elem_of_nil|done].
    + destruct (split sep s) as [|piece pieces]; inversion IH; subst.
      * constructor; [|constructor].
        apply not_elem_of_cons. split; [congruence|apply not_elem_of_nil].
      * constructor; [|done]. apply not_elem_of_cons. split; [congruence|done].
Qed.

Lemma join_split sep s : join [sep] (split sep s) = s.
Proof.
  induction s as [|c s IH]; simpl; [done|].
  pose proof (split_not_nil sep s) as Hne.
  destruct (N.eqb_spec c sep) as [->|Hc].
  - destruct (split sep s) as [|piece pieces]; [done|].
    simpl in *. by rewrite IH.
  - destruct (split sep s) as [|piece pieces]; [done|].
    destruct pieces; simpl in *; by rewrite <- IH.
Qed.

(** ** Matchers *)

Lemma matcher_of_label_no_eq label :
  61%N ∉ label → matcher_of_label label = Raise index_error.
Proof. intros Hno. unfold matcher_of_label. by rewrite (split_no_sep _ _ Hno). Qed.

Lemma matcher_of_label_one_eq n v :
  61%N ∉ n → 61%N ∉ v →
  matcher_of_label (n ++ 61%N :: v) = Ok {| name := n; value := v; isRegex := false |}.
Proof.
  intros Hn Hv. unfold matcher_of_label.
  by rewrite (split_at_first _ _ _ Hn), (split_no_sep _ _ Hv).
Qed.

Lemma matcher_of_label_more_eq n v more :
  61%N ∉ n → 61%N ∉ v →
  matcher_of_label (n ++ 61%N :: v ++ 61%N :: more)
  = Ok {| name := n; value := v; isRegex := false |}.
Proof.
  intros Hn Hv. unfold matcher_of_label.
  by rewrite (split_at_first _ _ _ Hn), (split_at_first _ _ _ Hv).
Qed.

Lemma matcher_of_label_complete label m :
  matcher_of label m → matcher_of_label label = Ok m.
Proof.
  destruct m as [n v r]. intros (Hr & Hn & Hv & [-> | [more ->]]); simpl in *; subst r.
  - by apply matcher_of_label_one_eq.
  - by apply matcher_of_label_more_eq.
Qed.

Lemma matcher_of_label_cases label :
  ((61%N ∉ label) ∧ matcher_of_label label = Raise index_error)
  ∨ (61%N ∈ label ∧ ∃ m, matcher_of_label label = Ok m ∧ matcher_of label m).
Proof.
  destruct (first_sep 61%N label) as [Hno | (n & rest & -> & Hn)].
  { left. split; [done|by apply matcher_of_label_no_eq]. }
  right. split; [apply elem_of_middle|].
  exists {| name := n; value := hd [] (split 61%N rest); isRegex := false |}.
  destruct (first_sep 61%N rest) as [Hv | (v & more & -> & Hv)].
  - rewrite (split_no_sep _ _ Hv). simpl. split.
    + by apply matcher_of_label_one_eq.
    + repeat split; auto.
  - rewrite (split_at_first _ _ _ Hv). simpl. split.
    + by apply matcher_of_label_more_eq.
    + repeat split; eauto.
Qed.

Lemma matcher_of_label_sound label m :
  matcher_of_label label = Ok m → matcher_of label m.
Proof.
  destruct (matcher_of_label_cases label) as [[_ ->] | (_ & m' & -> & Hm')]; [done|].
  by intros [= <-].
Qed.

Lemma build_matchers_cases labels :
  (Forall (fun label : pystr => 61%N ∈ label) labels
   ∧ ∃ ms, build_matchers labels = Ok ms ∧ Forall2 matcher_of labels ms)
  ∨ (Exists (fun label : pystr => 61%N ∉ label) labels
     ∧ build_matchers labels = Raise index_error).
Proof.
  induction labels as [|label labels IH]; simpl.
  { left. split; [constructor|]. exists []. split; [done|constructor]. }
  destruct (matcher_of_label_cases label) as [[Hno ->] | (Heq & m & -> & Hm)]; simpl.
  { right. split; [by constructor|done]. }
  destruct IH as [(Hall & ms & -> & Hms) | [Hex ->]]; simpl.
  - left. split; [by constructor|]. exists (m :: ms). split; [done|by constructor].
  - right. split; [by apply Exists_cons_tl|done].
Qed.

Lemma build_matchers_ok labels :
  Forall (fun label : pystr => 61%N ∈ label) labels →
  ∃ ms, build_matchers labels = Ok ms ∧ Forall2 matcher_of labels ms.
Proof.
  intros Hall. destruct (build_matchers_cases labels) as [[_ H] | [Hex _]]; [done|].
  apply Exists_exists in Hex as (label & Hin & Hno).
  rewrite Forall_forall in Hall. destruct Hno. by apply Hall.
Qed.

Lemma build_matchers_raise labels :
  ¬ Forall (fun label : pystr => 61%N ∈ label) labels →
  build_matchers labels = Raise index_error.
Proof.
  intros Hnot. by destruct (build_matchers_cases labels) as [[Hall _] | [_ H]].
Qed.

(** ** create_silence *)

Lemma datetime_add_instant t d t' :
  datetime_add t d = Ok t' → instant t' = instant t + span d ∧ well_formed t'.
Proof.
  unfold datetime_add, instant, span, well_formed.
  set (us := microsecond t + microseconds d).
  set (s := day_second t + seconds d + us / 1000000).
  set (o := day_ordinal t + days d + s / 86400).
  destruct ((1 <=? o) && (o <=? MAXORDINAL)) eqn:Hrange; [|discriminate].
  intros [= <-]. simpl.
  apply andb_prop in Hrange as [Hlo Hhi].
  apply Z.leb_le in Hlo. apply Z.leb_le in Hhi.
  pose proof (Z.div_mod us 1000000 ltac:(lia)) as Hus.
  pose proof (Z.div_mod s 86400 ltac:(lia)) as Hs.
  pose proof (Z.mod_pos_bound us 1000000 ltac:(lia)).
  pose proof (Z.mod_pos_bound s 86400 ltac:(lia)).
  assert (Hdef : us = microsecond t + microseconds d) by reflexivity.
  unfold o, s in *. clearbody us. repeat split; lia.
Qed.

Lemma create_silence_sent config w matcher_text duration comment_text username
    end_time ms :
  datetime_add (now w) duration = Ok end_time →
  build_matchers (split 44%N matcher_text) = Ok ms →
  (create_silence config w matcher_text duration comment_text username).1
  = [Post (ALERTMANAGER_URL config ++ str "/api/v2/silences")
       {| matchers := ms;
          startsAt := isoformat (now w);
          endsAt := isoformat end_time;
          createdBy := str "mattermost-bot:" ++ username;
          comment := comment_text ++ str " (created-by: " ++ username ++ str ")" |}].
Proof. intros Hend Hms. unfold create_silence. by rewrite Hend, Hms. Qed.

Lemma create_silence_sent_inv config w matcher_text duration comment_text username
    url data :
  Post url data ∈ (create_silence config w matcher_text duration comment_text username).1 →
  ∃ end_time ms,
    datetime_add (now w) duration = Ok end_time
    ∧ build_matchers (split 44%N matcher_text) = Ok ms
    ∧ url = ALERTMANAGER_URL config ++ str "/api/v2/silences"
    ∧ data = {| matchers := ms;
                startsAt := isoformat (now w);
                endsAt := isoformat end_time;
                createdBy := str "mattermost-bot:" ++ username;
                comment := comment_text ++ str " (created-by: " ++ username ++ str ")" |}.
Proof.
  unfold create_silence.
  destruct (datetime_add (now w) duration) as [end_time|e]; cbn [fst];
    [|by intros ?%elem_of_nil].
  destruct (build_matchers (split 44%N matcher_text)) as [ms|e]; cbn [fst];
    [|by intros ?%elem_of_nil].
  intros [= -> ->]%list_elem_of_singleton. by exists end_time, ms.
Qed.

Lemma create_silence_no_matchers config w matcher_text duration comment_text username
    end_time e :
  datetime_add (now w) duration = Ok end_time →
  build_matchers (split 44%N matcher_text) = Raise e →
  create_silence config w matcher_text duration comment_text username = ([], Raise e).
Proof. intros Hend Hms. unfold create_silence. by rewrite Hend, Hms. Qed.

(** C2, as amended: when the end of the silence can be computed,
    [create_silence] splits the matcher string on commas; if every segment
    holds an '=', it sends one matcher per segment, in the order of the
    segments, whose name is the text before the first '=', whose value is
    the text between the first '=' and the next '=' (the whole rest when
    there is no other '=') and whose isRegex is false; if some segment holds
    no '=', nothing is sent and the call raises [IndexError]. *)
Theorem create_silence_matchers config w matcher_text duration comment_text username
    end_time :
  datetime_add (now w) duration = Ok end_time →
  (Forall (fun label : pystr => 61%N ∈ label) (split 44%N matcher_text) →
   ∃ url data,
     (create_silence config w matcher_text duration comment_text username).1
     = [Post url data]
     ∧ Forall2 matcher_of (split 44%N matcher_text) (matchers data))
  ∧ (¬ Forall (fun label : pystr => 61%N ∈ label) (split 44%N matcher_text) →
     create_silence config w matcher_text duration comment_text username
     = ([], Raise index_error)).
Proof.
  intros Hend. split.
  - intros Hall. destruct (build_matchers_ok _ Hall) as (ms & Hms & Hof).
    eexists _, _. split; [by apply create_silence_sent|done].
  - intros Hnot. apply (create_silence_no_matchers _ _ _ _ _ _ end_time); [done|].
    by apply build_matchers_raise.
Qed.

Lemma create_silence_matchers_witness :
  (∃ url data,
     (create_silence example_config accepting_world (str "a=b=c,x=y") two_hours
        (str "down") (str "alice")).1 = [Post url data]
     ∧ Forall2 matcher_of (split 44%N (str "a=b=c,x=y")) (matchers data))
  ∧ create_silence example_config accepting_world (str "abc") two_hours
      (str "down") (str "alice") = ([], Raise index_error).
Proof.
  split.
  - refine (proj1 (create_silence_matchers example_config accepting_world
                     (str "a=b=c,x=y") two_hours (str "down") (str "alice")
                     {| day_ordinal := 738887; day_second := 18245; microsecond := 0 |}
                     _) _).
    + vm_compute. reflexivity.
    + apply (bool_decide_unpack _). vm_compute. exact I.
  - refine (proj2 (create_silence_matchers example_config accepting_world
                     (str "abc") two_hours (str "down") (str "alice")
                     {| day_ordinal := 738887; day_second := 18245; microsecond := 0 |}
                     _) _).
    + vm_compute. reflexivity.
    + apply (bool_decide_eq_false _). vm_compute. reflexivity.
Defined.

(** C2 as stated fails: for the segment "a=b=c" the value sent is "b", not
    the entire text "b=c" after the first '='. *)
Lemma matcher_value_stops_at_second_eq :
  (create_silence example_config accepting_world (str "a=b=c") two_hours
     (str "down") (str "alice")).1
  = [Post example_url
       {| matchers := [ {| name := str "a"; value := str "b"; isRegex := false |} ];
          startsAt := str "2024-01-02T03:04:05+00:00";
          endsAt := str "2024-01-02T05:04:05+00:00";
          createdBy := str "mattermost-bot:alice";
          comment := str "down (created-by: alice)" |}]
  ∧ str "b" ≠ str "b=c".
Proof. split; [vm_compute; reflexivity|discriminate]. Qed.

(** C3, as amended: every silence that [create_silence] sends goes to the
    silences endpoint of Alertmanager with createdBy equal to
    "mattermost-bot:<username>", comment equal to
    "<comment> (created-by: <username>)", startsAt the ISO-8601 text of the
    current UTC time and endsAt the ISO-8601 text of a valid time whose
    instant is that of the start plus the duration. *)
Theorem create_silence_payload config w matcher_text duration comment_text username
    url data :
  Post url data ∈ (create_silence config w matcher_text duration comment_text username).1 →
  url = ALERTMANAGER_URL config ++ str "/api/v2/silences"
  ∧ createdBy data = str "mattermost-bot:" ++ username
  ∧ comment data = comment_text ++ str " (created-by: " ++ username ++ str ")"
  ∧ startsAt data = isoformat (now w)
  ∧ ∃ end_time,
      endsAt data = isoformat end_time
      ∧ instant end_time = instant (now w) + span duration
      ∧ well_formed end_time.
Proof.
  intros (end_time & ms & Hend & _ & -> & ->)%create_silence_sent_inv.
  repeat split. exists end_time. split; [done|].
  by apply datetime_add_instant.
Qed.

Lemma create_silence_payload_witness :
  example_url = ALERTMANAGER_URL example_config ++ str "/api/v2/silences"
  ∧ createdBy example_silence = str "mattermost-bot:" ++ str "alice"
  ∧ comment example_silence = str "down" ++ str " (created-by: " ++ str "alice" ++ str ")"
  ∧ startsAt example_silence = isoformat (now accepting_world)
  ∧ ∃ end_time,
      endsAt example_silence = isoformat end_time
      ∧ instant end_time = instant (now accepting_world) + span two_hours
      ∧ well_formed end_time.
Proof.
  apply (create_silence_payload example_config accepting_world (str "alertname=X")
           two_hours (str "down") (str "alice") example_url example_silence).
  vm_compute. constructor.
Defined.

(** C3 as stated fails: the creator sent for user alice is not "bot:alice". *)
Lemma created_by_is_not_bot_prefix :
  (create_silence example_config accepting_world (str "alertname=X") two_hours
     (str "down") (str "alice")).1 = [Post example_url example_silence]
  ∧ createdBy example_silence = str "mattermost-bot:alice"
  ∧ createdBy example_silence ≠ str "bot:" ++ str "alice".
Proof. split; [vm_compute; reflexivity|]. split; [reflexivity|discriminate]. Qed.

(** ** The handler after the checks *)

Lemma try_body_few config w command :
  (length (split_whitespace (text command)) < 3)%nat →
  try_body config w command = ([], Ok (ephemeral usage_text)).
Proof.
  intros Hfew. unfold try_body.
  by rewrite (proj2 (Nat.ltb_lt _ _) Hfew).
Qed.

Lemma try_body_three config w command matcher_text duration_str word words :
  split_whitespace (text command) = matcher_text :: duration_str :: word :: words →
  try_body config w command
  = silence_with config w (user_name command) matcher_text duration_str
      (join (str " ") (word :: words)).
Proof. intros Hargs. unfold try_body. by rewrite Hargs. Qed.

Lemma silence_with_bad_duration config w username matcher_text duration_str comment_text e :
  parse_duration duration_str = Raise e →
  silence_with config w username matcher_text duration_str comment_text = ([], Raise e).
Proof. intros Hparse. unfold silence_with. by rewrite Hparse. Qed.

Lemma silence_with_raise config w username matcher_text duration_str comment_text
    duration e :
  parse_duration duration_str = Ok duration →
  (create_silence config w matcher_text duration comment_text username).2 = Raise e →
  (silence_with config w username matcher_text duration_str comment_text).2 = Raise e.
Proof.
  intros Hparse. unfold silence_with. rewrite Hparse.
  destruct (create_silence _ _ _ _ _ _) as [events [id|e']]; simpl; [done|].
  by intros [= ->].
Qed.

Lemma silence_with_sent config w username matcher_text duration_str comment_text
    url data :
  Post url data ∈ (silence_with config w username matcher_text duration_str comment_text).1 →
  ∃ duration,
    parse_duration duration_str = Ok duration
    ∧ Post url data
      ∈ (create_silence config w matcher_text duration comment_text username).1.
Proof.
  unfold silence_with.
  destruct (parse_duration duration_str) as [duration|e]; cbn [fst];
    [|by intros ?%elem_of_nil].
  intros Hin. exists duration. split; [done|].
  destruct (create_silence _ _ _ _ _ _) as [events [id|e]]; cbn [fst] in *; [|done].
  apply elem_of_app in Hin as [Hin | Hin%list_elem_of_singleton]; [done|discriminate].
Qed.

Lemma try_except_sent outcome url data :
  Post url data ∈ (try_except outcome).1 → Post url data ∈ outcome.1.
Proof.
  destruct outcome as [events [r|e]]; [done|].
  rewrite try_except_raise. cbn [fst].
  intros [Hin | Hin%list_elem_of_singleton]%elem_of_app; [done|].
  by destruct (is_ValueError e).
Qed.

Lemma create_silence_result config w matcher_text duration comment_text username
    url data :
  (create_silence config w matcher_text duration comment_text username).1
  = [Post url data] →
  (create_silence config w matcher_text duration comment_text username).2
  = (let* response := post w url data in
     let* _ := raise_for_status response in
     let* j := body response in
     json_getitem j (str "silenceID")).
Proof.
  unfold create_silence.
  destruct (datetime_add (now w) duration) as [end_time|e]; [|done].
  destruct (build_matchers (split 44%N matcher_text)) as [ms|e]; [|done].
  cbn [fst snd]. by intros [= <- <-].
Qed.

Lemma parse_duration_huge_days :
  parse_duration (str "999999999999d")
  = Raise (Exn OverflowError (str "Python int too large to convert to C int")).
Proof. vm_compute. reflexivity. Qed.

Lemma failure_raises config w command e :
  failure config w command e → (try_body config w command).2 = Raise e.
Proof.
  intros [m d word words e' Hargs Hparse
         | m d word words duration end_time label Hargs Hparse Hend Hin Hno
         | m d word words duration url data e' Hargs Hparse Hsent Hpost
         | m d word words duration url data r Hargs Hparse Hsent Hpost Hstatus];
    rewrite (try_body_three _ _ _ _ _ _ _ Hargs).
  - by rewrite (silence_with_bad_duration _ _ _ _ _ _ _ Hparse).
  - apply (silence_with_raise _ _ _ _ _ _ duration); [done|].
    rewrite (create_silence_no_matchers _ _ _ _ _ _ end_time index_error); [done..|].
    apply build_matchers_raise. rewrite Forall_forall. intros Hall. by apply Hno, Hall.
  - apply (silence_with_raise _ _ _ _ _ _ duration); [done|].
    by rewrite (create_silence_result _ _ _ _ _ _ _ _ Hsent), Hpost.
  - apply (silence_with_raise _ _ _ _ _ _ duration); [done|].
    rewrite (create_silence_result _ _ _ _ _ _ _ _ Hsent), Hpost. simpl.
    unfold raise_for_status.
    destruct (Z.leb_spec 200 (status_code r)), (Z.leb_spec (status_code r) 299);
      simpl; try done.
    destruct Hstatus. lia.
Qed.

(** C4: for a request that passes the token check and the allow-list check,
    the answer always has status 200; whenever the body of the [try] raises
    an exception, the answer is an ephemeral reply whose text is "Error: "
    (for a [ValueError]) or "An error occurred: " (otherwise) followed by the
    text of the exception; and a refused duration, a label without '=', a
    transport error and a non-2xx answer of Alertmanager are such
    exceptions. *)
Theorem failures_become_replies config environ w command :
  authenticated config command → authorized environ command →
  http_status (handle_silence_command config environ w command).2 = 200
  ∧ (∀ e, (try_body config w command).2 = Raise e →
       (handle_silence_command config environ w command).2
       = Return (ephemeral (error_msg e)))
  ∧ (∀ e, failure config w command e →
       (handle_silence_command config environ w command).2
       = Return (ephemeral (error_msg e))).
Proof.
  intros Hauth Hallow. rewrite (handler_checked _ _ _ _ Hauth Hallow).
  split; [apply try_except_status|].
  assert (Hraise : ∀ e, (try_body config w command).2 = Raise e →
            (try_except (try_body config w command)).2 = Return (ephemeral (error_msg e))).
  { intros e. destruct (try_body config w command) as [events r]. cbn [snd].
    intros ->. by rewrite try_except_raise. }
  split; [done|]. intros e Hfail. by apply Hraise, failure_raises.
Qed.

Lemma example_authenticated user txt :
  authenticated example_config (example_command "secret" user txt).
Proof. split; [discriminate|]. apply list_elem_of_singleton. reflexivity. Qed.

Lemma example_authorized user txt : authorized ∅ (example_command "secret" user txt).
Proof. unfold authorized, get_approved_users. by rewrite lookup_empty. Qed.

Lemma failures_become_replies_witness :
  http_status (handle_silence_command example_config ∅ failing_world
                 (example_command "secret" "alice" "alertname=X 2h down")).2 = 200
  ∧ (handle_silence_command example_config ∅ failing_world
       (example_command "secret" "alice" "alertname=X 2h down")).2
    = Return (ephemeral (str "An error occurred: "
                         ++ service_unavailable (str "http://alertmanager:9093/api/v2/silences"))).
Proof.
  assert (Hauth : authenticated example_config
                    (example_command "secret" "alice" "alertname=X 2h down")).
  { split; [discriminate|]. apply list_elem_of_singleton. reflexivity. }
  assert (Hallow : authorized ∅ (example_command "secret" "alice" "alertname=X 2h down")).
  { vm_compute. exact I. }
  destruct (failures_become_replies example_config ∅ failing_world
              (example_command "secret" "alice" "alertname=X 2h down") Hauth Hallow)
    as (Hstatus & Hraise & _).
  split; [exact Hstatus|].
  refine (Hraise (Exn HTTPStatusError
                    (service_unavailable (str "http://alertmanager:9093/api/v2/silences"))) _).
  vm_compute. reflexivity.
Defined.

(** ** The route and the token check *)

Lemma bind_command_token f command :
  bind_command f = Some command → form_text f (str "token") = Some (token command).
Proof.
  unfold bind_command.
  destruct (form_text f (str "token")) as [a|]; [|done].
  repeat (match goal with
          | |- context [form_text f ?key ≫= _] =>
              destruct (form_text f key); [|done]
          end; cbn [mbind option_bind]).
  by intros [= <-].
Qed.

Lemma bind_command_form_of command : bind_command (form_of command) = Some command.
Proof. destruct command. vm_compute. reflexivity. Qed.

Lemma post_silence_bound config environ w f command :
  bind_command f = Some command →
  post_silence config environ w f
  = ((handle_silence_command config environ w command).1,
     Answer (handle_silence_command config environ w command).2).
Proof. intros Hbind. unfold post_silence. by rewrite Hbind. Qed.

Lemma post_silence_unbound config environ w f :
  bind_command f = None → post_silence config environ w f = ([], InternalServerError).
Proof. intros Hbind. unfold post_silence. by rewrite Hbind. Qed.

(** C5, as amended: for every request, when no token is configured the
    answer is 500; when tokens are configured, the form binds to a command
    (each of the ten fields is there as a text) and the token of the form is
    not one of them, the answer is 401; a request whose form does not bind
    is answered 500, whatever token it carries; in all these cases nothing
    is sent to Alertmanager. *)
Theorem request_token_check config environ w f :
  (MATTERMOST_TOKENS config = [] →
   route_status (post_silence config environ w f).2 = 500
   ∧ posts (post_silence config environ w f).1 = [])
  ∧ (∀ command, bind_command f = Some command →
       form_text f (str "token") = Some (token command)
       ∧ (MATTERMOST_TOKENS config ≠ [] →
          token command ∉ MATTERMOST_TOKENS config →
          route_status (post_silence config environ w f).2 = 401
          ∧ posts (post_silence config environ w f).1 = []))
  ∧ (bind_command f = None →
     route_status (post_silence config environ w f).2 = 500
     ∧ posts (post_silence config environ w f).1 = []).
Proof.
  split; [|split].
  - intros Hnone. destruct (bind_command f) as [command|] eqn:Hbind.
    + rewrite (post_silence_bound _ _ _ _ _ Hbind).
      rewrite handler_not_authenticated by (by intros [? _]).
      by rewrite (bool_decide_eq_true_2 _ Hnone).
    + by rewrite (post_silence_unbound _ _ _ _ Hbind).
  - intros command Hbind. split; [by apply bind_command_token|].
    intros Hsome Hout. rewrite (post_silence_bound _ _ _ _ _ Hbind).
    rewrite handler_not_authenticated by (by intros [_ ?]).
    by rewrite (bool_decide_eq_false_2 _ Hsome).
  - intros Hbind. by rewrite (post_silence_unbound _ _ _ _ Hbind).
Qed.

Lemma request_token_check_witness :
  (route_status (post_silence unconfigured ∅ accepting_world
                   (example_form "secret" "alice" "alertname=X 2h down")).2 = 500
   ∧ posts (post_silence unconfigured ∅ accepting_world
              (example_form "secret" "alice" "alertname=X 2h down")).1 = [])
  ∧ (route_status (post_silence example_config ∅ accepting_world
                     (example_form "wrong" "alice" "alertname=X 2h down")).2 = 401
     ∧ posts (post_silence example_config ∅ accepting_world
                (example_form "wrong" "alice" "alertname=X 2h down")).1 = [])
  ∧ (route_status (post_silence example_config ∅ accepting_world
                     (delete (str "text")
                        (example_form "secret" "alice" "alertname=X 2h down"))).2 = 500
     ∧ posts (post_silence example_config ∅ accepting_world
                (delete (str "text")
                   (example_form "secret" "alice" "alertname=X 2h down"))).1 = []).
Proof.
  split; [|split].
  - apply (proj1 (request_token_check unconfigured ∅ accepting_world
                    (example_form "secret" "alice" "alertname=X 2h down"))).
    reflexivity.
  - apply (proj1 (proj2 (request_token_check example_config ∅ accepting_world
                           (example_form "wrong" "alice" "alertname=X 2h down")))
             (example_command "wrong" "alice" "alertname=X 2h down")).
    + vm_compute. reflexivity.
    + discriminate.
    + intros Hin%list_elem_of_singleton. vm_compute in Hin. discriminate.
  - apply (proj2 (proj2 (request_token_check example_config ∅ accepting_world
                           (delete (str "text")
                              (example_form "secret" "alice" "alertname=X 2h down"))))).
    vm_compute. reflexivity.
Defined.

(** C5 as stated fails: tokens are configured and the token of the request
    is not one of them, yet the answer is 500, not 401, because the form
    has no response_url and does not bind. *)
Lemma unbound_form_gets_500 :
  MATTERMOST_TOKENS example_config ≠ []
  ∧ form_text (delete (str "response_url")
                 (example_form "wrong" "alice" "alertname=X 2h down")) (str "token")
    = Some (str "wrong")
  ∧ (str "wrong" ∉ MATTERMOST_TOKENS example_config)
  ∧ post_silence example_config ∅ accepting_world
      (delete (str "response_url") (example_form "wrong" "alice" "alertname=X 2h down"))
    = ([], InternalServerError)
  ∧ route_status (post_silence example_config ∅ accepting_world
                    (delete (str "response_url")
                       (example_form "wrong" "alice" "alertname=X 2h down"))).2 ≠ 401.
Proof.
  split; [discriminate|]. split; [vm_compute; reflexivity|].
  split; [intros Hin%list_elem_of_singleton; vm_compute in Hin; discriminate|].
  split; [vm_compute; reflexivity|]. vm_compute. discriminate.
Qed.

(** C7, as amended: for a request that passes the token check, when
    ALLOWED_USERS is absent or empty the handler goes on to the command
    whatever the user name is; when ALLOWED_USERS is a non-empty text and
    the user name is not one of its comma-separated entries, the handler
    answers 200 with the ephemeral not-authorized reply and sends nothing to
    Alertmanager. *)
Theorem allow_list_check config environ w command :
  authenticated config command →
  (environ !! str "ALLOWED_USERS" = None ∨ environ !! str "ALLOWED_USERS" = Some [] →
   handle_silence_command config environ w command
   = try_except (try_body config w command))
  ∧ (∀ users, environ !! str "ALLOWED_USERS" = Some users → users ≠ [] →
     user_name command ∉ comma_list users →
     handle_silence_command config environ w command
     = ([], Return (ephemeral not_authorized_text))
     ∧ http_status (handle_silence_command config environ w command).2 = 200
     ∧ posts (handle_silence_command config environ w command).1 = []).
Proof.
  intros Hauth. split.
  - intros Hunset. apply handler_checked; [done|].
    unfold authorized, get_approved_users. by destruct Hunset as [-> | ->].
  - intros users Hset Hne Hout.
    assert (H : handle_silence_command config environ w command
                = ([], Return (ephemeral not_authorized_text))).
    { apply (handler_not_authorized _ _ _ _ (comma_list users)); [done| |done].
      unfold get_approved_users. rewrite Hset. by destruct users. }
    by rewrite H.
Qed.

Lemma allow_list_check_witness :
  handle_silence_command example_config ∅ accepting_world
    (example_command "secret" "carol" "alertname=X")
  = try_except (try_body example_config accepting_world
                  (example_command "secret" "carol" "alertname=X"))
  ∧ handle_silence_command example_config startup_environ accepting_world
      (example_command "secret" "carol" "alertname=X 2h down")
    = ([], Return (ephemeral not_authorized_text)).
Proof.
  split.
  - apply (proj1 (allow_list_check example_config ∅ accepting_world
                    (example_command "secret" "carol" "alertname=X")
                    (example_authenticated "carol" "alertname=X"))).
    left. reflexivity.
  - apply (proj2 (allow_list_check example_config startup_environ accepting_world
                    (example_command "secret" "carol" "alertname=X 2h down")
                    (example_authenticated "carol" "alertname=X 2h down"))
             (str "alice,bob")).
    + vm_compute. reflexivity.
    + discriminate.
    + apply (bool_decide_eq_false _). vm_compute. reflexivity.
Defined.

(** C7 as stated fails without the token check: carol is not in the
    allow-list "alice,bob", but her request carries a token that is not
    configured and is answered 401, not 200 with the not-authorized reply. *)
Lemma unlisted_user_with_wrong_token :
  get_approved_users startup_environ = Some [str "alice"; str "bob"]
  ∧ (str "carol" ∉ [str "alice"; str "bob"])
  ∧ handle_silence_command example_config startup_environ accepting_world
      (example_command "wrong" "carol" "alertname=X 2h down")
    = ([Log WARNING (str "Invalid token received from user: carol")],
       HTTPException 401 (str "Invalid token"))
  ∧ http_status (handle_silence_command example_config startup_environ accepting_world
                   (example_command "wrong" "carol" "alertname=X 2h down")).2 ≠ 200.
Proof.
  split; [vm_compute; reflexivity|].
  split; [apply (bool_decide_eq_false _); vm_compute; reflexivity|].
  split; [vm_compute; reflexivity|]. vm_compute. discriminate.
Qed.

(** C6: for a request that passes both checks, a text of fewer than three
    whitespace-separated words gets the ephemeral usage reply with status
    200 and nothing is sent; with three words or more the handler runs the
    command with the first word as matcher, the second as duration and the
    other words joined by single spaces as comment, so that every silence
    sent is the one [create_silence] builds from these. *)
Theorem arguments_of_text config environ w command :
  authenticated config command → authorized environ command →
  ((length (split_whitespace (text command)) < 3)%nat →
   handle_silence_command config environ w command
   = ([], Return (ephemeral usage_text))
   ∧ http_status (handle_silence_command config environ w command).2 = 200
   ∧ posts (handle_silence_command config environ w command).1 = [])
  ∧ (∀ matcher_text duration_str word words,
       split_whitespace (text command) = matcher_text :: duration_str :: word :: words →
       handle_silence_command config environ w command
       = try_except (silence_with config w (user_name command) matcher_text
                       duration_str (join (str " ") (word :: words)))
       ∧ ∀ url data,
           Post url data ∈ (handle_silence_command config environ w command).1 →
           ∃ duration,
             parse_duration duration_str = Ok duration
             ∧ Post url data
               ∈ (create_silence config w matcher_text duration
                    (join (str " ") (word :: words)) (user_name command)).1).
Proof.
  intros Hauth Hallow. rewrite (handler_checked _ _ _ _ Hauth Hallow). split.
  - intros Hfew. by rewrite (try_body_few _ _ _ Hfew).
  - intros m d word words Hargs. rewrite (try_body_three _ _ _ _ _ _ _ Hargs).
    split; [done|]. intros url data Hin.
    by apply silence_with_sent, try_except_sent.
Qed.

Lemma arguments_of_text_witness :
  handle_silence_command example_config ∅ accepting_world
    (example_command "secret" "alice" "alertname=X 2h")
  = ([], Return (ephemeral usage_text))
  ∧ handle_silence_command example_config ∅ accepting_world
      (example_command "secret" "alice" "alertname=X  2h  disk   is full ")
    = try_except (silence_with example_config accepting_world (str "alice")
                    (str "alertname=X") (str "2h") (str "disk is full")).
Proof.
  split.
  - apply (proj1 (arguments_of_text example_config ∅ accepting_world
                    (example_command "secret" "alice" "alertname=X 2h")
                    (example_authenticated "alice" "alertname=X 2h")
                    (example_authorized "alice" "alertname=X 2h"))).
    vm_compute. lia.
  - apply (proj2 (arguments_of_text example_config ∅ accepting_world
                    (example_command "secret" "alice" "alertname=X  2h  disk   is full ")
                    (example_authenticated "alice" "alertname=X  2h  disk   is full ")
                    (example_authorized "alice" "alertname=X  2h  disk   is full "))
             (str "alertname=X") (str "2h") (str "disk") [str "is"; str "full"]).
    vm_compute. reflexivity.
Defined.




(** C10: "999999999999d" matches the duration pattern, yet [parse_duration]
    raises [OverflowError] for it, neither a span nor the invalid-format
    [ValueError]; a request that passes both checks with this duration gets
    the ephemeral reply "An error occurred: ..." and nothing is sent. *)
Theorem huge_duration_overflows :
  re_match duration_pattern (str "999999999999d")
  = Some [str "999999999999"; str "d"]
  ∧ parse_duration (str "999999999999d")
    = Raise (Exn OverflowError (str "Python int too large to convert to C int"))
  ∧ ∀ config environ w command matcher_text word words,
      authenticated config command → authorized environ command →
      split_whitespace (text command)
      = matcher_text :: str "999999999999d" :: word :: words →
      handle_silence_command config environ w command
      = ([Log ERROR (str "Error processing silence command")],
         Return (ephemeral
                   (str "An error occurred: Python int too large to convert to C int"))).
Proof.
  split; [vm_compute; reflexivity|]. split; [apply parse_duration_huge_days|].
  intros config environ w command m word words Hauth Hallow Hargs.
  rewrite (handler_checked _ _ _ _ Hauth Hallow).
  rewrite (try_body_three _ _ _ _ _ _ _ Hargs).
  by rewrite (silence_with_bad_duration _ _ _ _ _ _ _ parse_duration_huge_days).
Qed.

Lemma huge_duration_overflows_witness :
  handle_silence_command example_config ∅ accepting_world
    (example_command "secret" "alice" "alertname=X 999999999999d down")
  = ([Log ERROR (str "Error processing silence command")],
     Return (ephemeral
               (str "An error occurred: Python int too large to convert to C int"))).
Proof.
  apply (proj2 (proj2 huge_duration_overflows) example_config ∅ accepting_world
           (example_command "secret" "alice" "alertname=X 999999999999d down")
           (str "alertname=X") (str "down") []
           (example_authenticated "alice" "alertname=X 999999999999d down")
           (example_authorized "alice" "alertname=X 999999999999d down")).
  vm_compute. reflexivity.
Defined.

(** * Further properties *)

(** ** The outcomes of parse_duration *)

Lemma parse_duration_cases s :
  parse_duration s = Raise invalid_duration_format
  ∨ ∃ ds u tail,
      digits_and_unit ds u ∧ (tail = [] ∨ tail = [10%N]) ∧ s = ds ++ u :: tail
      ∧ (((length ds ≤ int_max_str_digits)%nat
          ∧ numeral_value ds * unit_seconds u < span_limit
          ∧ parse_duration s = Ok (span_of_seconds (numeral_value ds * unit_seconds u)))
         ∨ ((length ds ≤ int_max_str_digits)%nat
            ∧ span_limit ≤ numeral_value ds * unit_seconds u
            ∧ ∃ msg, parse_duration s = Raise (Exn OverflowError msg))
         ∨ ((int_max_str_digits < length ds)%nat
            ∧ ∃ msg, parse_duration s = Raise (Exn ValueError msg))).
Proof.
  destruct (re_match duration_pattern s) as [groups|] eqn:Hmatch.
  2: { left. unfold parse_duration. by rewrite Hmatch. }
  right. apply re_match_duration_inv in Hmatch as (ds & u & tail & Hdu & Htail & -> & _).
  exists ds, u, tail. repeat (split; [done|]).
  destruct (le_lt_dec (length ds) int_max_str_digits) as [Hlen|Hlen].
  - destruct (Z_lt_le_dec (numeral_value ds * unit_seconds u) span_limit) as [Hfit|Hbig].
    + left. repeat (split; [done|]). by apply parse_duration_in_range.
    + right. left. repeat (split; [done|]). by apply parse_duration_overflow.
  - right. right. split; [done|].
    destruct (parse_duration_matched ds u tail Hdu Htail) as (name & _ & ->).
    destruct Hdu as (Hne & Hdec & _).
    destruct (py_int_too_long ds Hne Hdec Hlen) as [msg ->]. by exists msg.
Qed.

Lemma span_of_seconds_whole total :
  0 ≤ total < span_limit → whole_span (span_of_seconds total).
Proof.
  unfold whole_span, span_of_seconds, span_limit, MAX_DELTA_DAYS. simpl. intros Hrange.
  pose proof (Z.mod_pos_bound total 86400 ltac:(lia)).
  assert (0 ≤ total / 86400) by (apply Z.div_pos; lia).
  assert (total / 86400 < 1000000000) by (apply Z.div_lt_upper_bound; lia).
  lia.
Qed.

Lemma unit_seconds_pos u : is_unit_letter u = true → 0 < unit_seconds u.
Proof.
  intros Hu. destruct (unit_letter_cases u Hu) as [-> | [-> | [-> | ->]]]; reflexivity.
Qed.

(** Every span that [parse_duration] returns is the value of a numeral in
    the unit of the letter behind it: a whole number of seconds, never
    negative, of at most 999999999 days. *)
Theorem parse_duration_returns_whole_span s td :
  parse_duration s = Ok td →
  whole_span td
  ∧ ∃ ds u, digits_and_unit ds u ∧ (s = ds ++ [u] ∨ s = ds ++ [u; 10%N])
            ∧ span td = numeral_value ds * unit_seconds u * 1000000.
Proof.
  intros Hok.
  destruct (parse_duration_cases s)
    as [Hbad | (ds & u & tail & Hdu & Htail & -> & Hcases)];
    [rewrite Hbad in Hok; discriminate|].
  destruct Hcases as [(_ & Hfit & Hres) | [(_ & _ & msg & Hres) | (_ & msg & Hres)]];
    rewrite Hres in Hok; try discriminate.
  injection Hok as <-.
  assert (0 ≤ numeral_value ds * unit_seconds u).
  { apply Z.mul_nonneg_nonneg; [apply numeral_value_nonneg|].
    apply Z.lt_le_incl, unit_seconds_pos, Hdu. }
  split; [by apply span_of_seconds_whole|].
  exists ds, u. repeat split; [apply Hdu..| |].
  - by destruct Htail as [-> | ->]; [left|right].
  - unfold span, span_of_seconds. simpl.
    pose proof (Z.div_mod (numeral_value ds * unit_seconds u) 86400 ltac:(lia)). lia.
Qed.

Lemma parse_duration_returns_whole_span_witness :
  whole_span {| days := 14; seconds := 0; microseconds := 0 |}.
Proof.
  apply (parse_duration_returns_whole_span (str "2w")).
  vm_compute. reflexivity.
Defined.

(** [parse_duration] raises nothing but [ValueError] and [OverflowError]:
    the lookup of the unit and the keyword call of [timedelta] never fail. *)
Theorem parse_duration_raises_value_or_overflow s e :
  parse_duration s = Raise e →
  exn_type e = ValueError ∨ exn_type e = OverflowError.
Proof.
  intros Hraise.
  destruct (parse_duration_cases s)
    as [Hbad | (ds & u & tail & _ & _ & _ & Hcases)].
  { rewrite Hbad in Hraise. injection Hraise as <-. by left. }
  destruct Hcases as [(_ & _ & Hres) | [(_ & _ & msg & Hres) | (_ & msg & Hres)]];
    rewrite Hres in Hraise; [discriminate|..]; injection Hraise as <-; auto.
Qed.

Lemma parse_duration_raises_value_or_overflow_witness :
  exn_type invalid_duration_format = ValueError
  ∨ exn_type invalid_duration_format = OverflowError.
Proof.
  apply (parse_duration_raises_value_or_overflow (str "2 h")).
  vm_compute. reflexivity.
Defined.

Lemma parse_duration_final_newline_witness :
  parse_duration (str "2h" ++ [10%N]) = parse_duration (str "2h").
Proof.
  apply (parse_duration_final_newline (str "2") 104%N).
  apply digits_and_unit_str; [reflexivity|discriminate|reflexivity].
Defined.

(** For digits with a unit letter, [parse_duration] raises [OverflowError]
    exactly when the value reaches 1000000000 days, the numeral having at
    most 4300 digits. *)
Theorem parse_duration_overflows_from_limit ds u :
  digits_and_unit ds u → (length ds ≤ int_max_str_digits)%nat →
  (∃ msg, parse_duration (ds ++ [u]) = Raise (Exn OverflowError msg))
  ↔ 1000000000 * 86400 ≤ numeral_value ds * unit_seconds u.
Proof.
  intros Hdu Hlen. change (1000000000 * 86400) with span_limit. split.
  - intros [msg Hraise].
    destruct (Z_lt_le_dec (numeral_value ds * unit_seconds u) span_limit) as [Hfit|]; [|done].
    rewrite (parse_duration_in_range ds u []) in Hraise by auto. discriminate.
  - intros Hbig. apply (parse_duration_overflow ds u []); auto.
Qed.

Lemma parse_duration_overflows_from_limit_witness :
  (∃ msg, parse_duration (str "1000000000d") = Raise (Exn OverflowError msg))
  ↔ 1000000000 * 86400 ≤ numeral_value (str "1000000000") * unit_seconds 100%N.
Proof.
  apply (parse_duration_overflows_from_limit (str "1000000000") 100%N).
  - apply digits_and_unit_str; [reflexivity|discriminate|reflexivity].
  - vm_compute. lia.
Defined.

(** A numeral of more than 4300 digits is refused by [int] with a
    [ValueError] that tells the number of digits, whatever the unit. *)
Theorem parse_duration_refuses_long_numeral ds u :
  digits_and_unit ds u → (int_max_str_digits < length ds)%nat →
  parse_duration (ds ++ [u])
  = Raise (Exn ValueError
      (str "Exceeds the limit (4300 digits) for integer string conversion: value has "
       ++ str_of_Z (Z.of_nat (length ds))
       ++ str " digits; use sys.set_int_max_str_digits() to increase the limit")).
Proof.
  intros Hdu Hlen.
  destruct (parse_duration_matched ds u [] Hdu (or_introl eq_refl)) as (name & _ & ->).
  destruct Hdu as (Hne & Hdec & _). rewrite (py_int_decimal ds Hne Hdec).
  by rewrite (proj2 (Nat.ltb_lt _ _) Hlen).
Qed.

Lemma parse_duration_refuses_long_numeral_witness :
  ∃ msg, parse_duration (repeat 48%N 4301 ++ [104%N]) = Raise (Exn ValueError msg).
Proof.
  eexists. apply (parse_duration_refuses_long_numeral (repeat 48%N 4301) 104%N).
  - apply digits_and_unit_str; [vm_compute; reflexivity|discriminate|reflexivity].
  - vm_compute. lia.
Defined.

(** ** Words of the command text *)

Lemma split_whitespace_cons c s :
  split_whitespace (c :: s)
  = if is_space c then split_whitespace s
    else match s with
         | [] => [[c]]
         | c' :: _ =>
             if is_space c' then [c] :: split_whitespace s
             else match split_whitespace s with
                  | w :: ws => (c :: w) :: ws
                  | [] => [[c]]
                  end
         end.
Proof. by destruct s. Qed.

Lemma is_word_cons c w : is_space c = false → blank_free w → is_word (c :: w).
Proof. intros Hc Hw. split; [done|by constructor]. Qed.

(** The words that [str.split()] gives are not empty and hold no blank, and
    together they are the text without its blanks. *)
Lemma split_whitespace_spec s :
  Forall is_word (split_whitespace s)
  ∧ concat (split_whitespace s) = filter (fun c => is_space c = false) s.
Proof.
  induction s as [|c s [IHw IHc]]; [split; [constructor|done]|].
  rewrite split_whitespace_cons.
  destruct (is_space c) eqn:Hc.
  { split; [done|]. rewrite filter_cons_False; [done|]. by rewrite Hc. }
  rewrite filter_cons_True by done. rewrite <- IHc.
  destruct s as [|c' s'].
  { split; [|done]. constructor; [|constructor]. apply is_word_cons; [done|constructor]. }
  destruct (is_space c') eqn:Hc'.
  { split; [|done]. constructor; [|done]. apply is_word_cons; [done|constructor]. }
  destruct (split_whitespace (c' :: s')) as [|w ws].
  { split; [|done]. constructor; [|constructor]. apply is_word_cons; [done|constructor]. }
  split; [|done]. inversion IHw as [|? ? [_ Hw] Hws]; subst.
  constructor; [|done]. by apply is_word_cons.
Qed.

Lemma split_whitespace_word w rest :
  is_word w →
  match rest with [] => True | c :: _ => is_space c = true end →
  split_whitespace (w ++ rest) = w :: split_whitespace rest.
Proof.
  intros [Hne Hw] Hrest. induction Hw as [|c w Hc Hw IH]; [done|].
  change ((c :: w) ++ rest) with (c :: (w ++ rest)).
  rewrite split_whitespace_cons, Hc.
  destruct w as [|c' w'].
  - simpl. destruct rest as [|r rest']; [done|]. by rewrite Hrest.
  - change ((c' :: w') ++ rest) with (c' :: (w' ++ rest)) in *.
    inversion Hw as [|? ? Hc' _]; subst. rewrite Hc'.
    by rewrite IH.
Qed.

Lemma join_cons_cons sep (w w' : pystr) ws :
  join sep (w :: w' :: ws) = w ++ sep ++ join sep (w' :: ws).
Proof. reflexivity. Qed.

(** Joining words with single spaces and splitting again gives the words
    back: the comment that the handler builds holds exactly the words after
    the duration, one space between two of them. *)
Lemma split_whitespace_join ws :
  Forall is_word ws → split_whitespace (join (str " ") ws) = ws.
Proof.
  induction 1 as [|w ws Hw Hws IH]; [done|].
  destruct ws as [|w' ws'].
  - simpl. rewrite <- (app_nil_r w) at 1. by rewrite split_whitespace_word.
  - rewrite join_cons_cons. rewrite split_whitespace_word; [|done|reflexivity].
    change (str " " ++ join (str " ") (w' :: ws'))
      with (32%N :: join (str " ") (w' :: ws')).
    rewrite split_whitespace_cons. change (is_space 32) with true. cbv iota.
    by rewrite IH.
Qed.


(** ** strip and the comma-separated lists of the environment *)

Lemma lstrip_decompose s : ∃ pre, s = pre ++ lstrip s ∧ blank pre.
Proof.
  induction s as [|c s (pre & Hs & Hpre)]; [exists []; split; [done|constructor]|].
  simpl. destruct (is_space c) eqn:Hc.
  - exists (c :: pre). split; [by rewrite Hs at 1|by constructor].
  - exists []. split; [done|constructor].
Qed.

Lemma lstrip_head s c : head (lstrip s) = Some c → is_space c = false.
Proof.
  induction s as [|c' s IH]; [done|]. simpl.
  destruct (is_space c') eqn:Hc'; [done|]. by intros [= <-].
Qed.

Lemma lstrip_unchanged s c : head s = Some c → is_space c = false → lstrip s = s.
Proof. destruct s as [|c' s]; [done|]. simpl. by intros [= ->] ->. Qed.

Lemma last_rev (s : pystr) : last (rev s) = head s.
Proof. destruct s as [|c s]; [done|]. simpl. apply last_snoc. Qed.

Lemma head_rev (s : pystr) : head (rev s) = last s.
Proof. rewrite <- (rev_involutive s) at 2. by rewrite last_rev. Qed.

Lemma blank_rev s : blank s → blank (rev s).
Proof. apply List.Forall_rev. Qed.

Lemma strip_decompose s :
  ∃ pre post, s = pre ++ strip s ++ post ∧ blank pre ∧ blank post.
Proof.
  destruct (lstrip_decompose s) as (pre & Hs & Hpre).
  destruct (lstrip_decompose (rev (lstrip s))) as (post & Hrev & Hpost).
  exists pre, (rev post). split; [|split; [done|by apply blank_rev]].
  unfold strip. rewrite <- rev_app_distr, <- Hrev, rev_involutive. exact Hs.
Qed.

Lemma head_app_cons (c : N) s post : head ((c :: s) ++ post) = Some c.
Proof. reflexivity. Qed.

Lemma strip_trimmed s : strip s ≠ [] → trimmed (strip s).
Proof.
  intros Hne. split.
  - destruct (lstrip_decompose (rev (lstrip s))) as (post & Hrev & Hpost).
    fold (strip s) in Hne. unfold strip in *.
    set (inner := lstrip (rev (lstrip s))) in *.
    assert (Hs : lstrip s = rev inner ++ rev post).
    { by rewrite <- rev_app_distr, <- Hrev, rev_involutive. }
    destruct (rev inner) as [|c t] eqn:Hinner; [done|].
    exists c. split; [done|]. apply (lstrip_head s). by rewrite Hs.
  - unfold strip in *. rewrite last_rev.
    destruct (lstrip (rev (lstrip s))) as [|c t] eqn:Hinner; [done|].
    exists c. split; [done|]. apply (lstrip_head (rev (lstrip s))). by rewrite Hinner.
Qed.

Lemma strip_of_trimmed w : trimmed w → strip w = w.
Proof.
  intros [(c & Hhead & Hc) (c' & Hlast & Hc')]. unfold strip.
  rewrite (lstrip_unchanged w c Hhead Hc).
  rewrite (lstrip_unchanged (rev w) c'); [apply rev_involutive| |done].
  by rewrite head_rev.
Qed.

Lemma trimmed_not_nil w : trimmed w → w ≠ [].
Proof. by intros [(c & Hhead & _) _] ->. Qed.

Lemma strip_keeps_out (sep : N) s : sep ∉ s → sep ∉ strip s.
Proof.
  destruct (strip_decompose s) as (pre & post & Hs & _). intros Hno Hin.
  apply Hno. rewrite Hs. apply elem_of_app. right. apply elem_of_app. by left.
Qed.

(** Every entry of a list read from the environment (the tokens, the
    approved users) is not empty, has no blank at either end and holds no
    comma. *)
Lemma comma_list_entries s : Forall list_entry (comma_list s).
Proof.
  unfold comma_list. pose proof (split_pieces 44%N s) as Hpieces.
  induction Hpieces as [|x xs Hx _ IH]; [constructor|].
  simpl. destruct (strip x) as [|c t] eqn:Hstrip; [done|].
  simpl. constructor; [|done]. rewrite <- Hstrip. split.
  - apply strip_trimmed. by rewrite Hstrip.
  - by apply strip_keeps_out.
Qed.

Lemma split_join (sep : N) ws :
  ws ≠ [] → Forall (fun w : pystr => sep ∉ w) ws → split sep (join [sep] ws) = ws.
Proof.
  intros Hne Hws. induction Hws as [|w ws Hw Hws IH]; [done|].
  destruct ws as [|w' ws'].
  - simpl. by apply split_no_sep.
  - rewrite join_cons_cons. change ([sep] ++ ?x) with (sep :: x).
    rewrite (split_at_first _ _ _ Hw). by rewrite IH.
Qed.

Lemma omap_strip_entries ws :
  Forall list_entry ws →
  omap (fun x => match strip x with [] => None | y => Some y end) ws = ws.
Proof.
  induction 1 as [|x xs [Hx _] _ IH]; [done|].
  rewrite <- IH at 2. cbn [omap list_omap]. rewrite (strip_of_trimmed x Hx).
  destruct x as [|c t]; [by apply trimmed_not_nil in Hx|]. reflexivity.
Qed.

(** Writing entries with commas between them and reading the list back
    gives the entries, in order. *)
Lemma comma_list_join ws :
  Forall list_entry ws → comma_list (join (str ",") ws) = ws.
Proof.
  intros Hws. destruct ws as [|w ws]; [done|].
  unfold comma_list. change (str ",") with [44%N].
  rewrite split_join; [|done|by eapply Forall_impl; [exact Hws|intros ? [_ ?]]].
  by apply omap_strip_entries.
Qed.


(** ** What create_silence returns *)

Lemma create_silence_events config w matcher_text duration comment_text username :
  (create_silence config w matcher_text duration comment_text username).1 = []
  ∧ (∃ e, (create_silence config w matcher_text duration comment_text username).2
          = Raise e)
  ∨ ∃ data,
      (create_silence config w matcher_text duration comment_text username).1
      = [Post (silences_endpoint config) data].
Proof.
  unfold create_silence.
  destruct (datetime_add (now w) duration) as [end_time|e]; [|left; eauto].
  destruct (build_matchers (split 44%N matcher_text)) as [ms|e]; [|left; eauto].
  right. eauto.
Qed.

Lemma raise_for_status_ok r :
  raise_for_status r = Ok tt ↔ 200 ≤ status_code r ≤ 299.
Proof.
  unfold raise_for_status.
  destruct (Z.leb_spec 200 (status_code r)), (Z.leb_spec (status_code r) 299);
    simpl; split; intros Hok; try done; try lia.
Qed.

Lemma response_silence_id w url data silence_id :
  (let* response := post w url data in
   let* _ := raise_for_status response in
   let* j := body response in
   json_getitem j (str "silenceID")) = Ok silence_id
  ↔ accepted w url data silence_id.
Proof.
  unfold accepted. split.
  - destruct (post w url data) as [r|e]; [|done]. simpl.
    destruct (raise_for_status r) as [[]|e] eqn:Hstatus; [|done]. simpl.
    apply raise_for_status_ok in Hstatus.
    destruct (body r) as [j|e] eqn:Hbody; [|done]. simpl.
    destruct j as [members| | | | | |]; try done. simpl.
    destruct (members !! str "silenceID") as [v|] eqn:Hid; [|done].
    intros [= <-]. by exists r, members.
  - intros (r & members & -> & Hstatus & Hbody & Hid). simpl.
    rewrite (proj2 (raise_for_status_ok r) Hstatus). simpl.
    rewrite Hbody. simpl. by rewrite Hid.
Qed.

(** [create_silence] returns an identifier exactly when it has sent the
    silence and Alertmanager has answered with a 2xx status and a JSON
    object that holds this identifier under "silenceID". *)
Theorem create_silence_returns config w matcher_text duration comment_text username
    silence_id :
  (create_silence config w matcher_text duration comment_text username).2 = Ok silence_id
  ↔ ∃ data,
      (create_silence config w matcher_text duration comment_text username).1
      = [Post (silences_endpoint config) data]
      ∧ accepted w (silences_endpoint config) data silence_id.
Proof.
  split.
  - intros Hok.
    destruct (create_silence_events config w matcher_text duration comment_text username)
      as [[_ [e He]] | [data Hsent]]; [by rewrite He in Hok|].
    exists data. split; [done|]. apply response_silence_id.
    by rewrite <- (create_silence_result _ _ _ _ _ _ _ _ Hsent).
  - intros (data & Hsent & Haccepted).
    rewrite (create_silence_result _ _ _ _ _ _ _ _ Hsent).
    by apply response_silence_id.
Qed.

(** ** The runs of the handler *)

Lemma three_or_fewer (args : list pystr) :
  (length args < 3)%nat ∨ ∃ a b c rest, args = a :: b :: c :: rest.
Proof.
  destruct args as [|a [|b [|c rest]]]; simpl; try (left; lia). right. eauto.
Qed.

Lemma handler_cases config environ w command :
  (¬ authenticated config command
   ∧ ∃ status detail l message,
       handle_silence_command config environ w command
       = ([Log l message], HTTPException status detail)
       ∧ (status = 500 ∨ status = 401))
  ∨ (authenticated config command ∧ ¬ authorized environ command
     ∧ handle_silence_command config environ w command
       = ([], Return (ephemeral not_authorized_text)))
  ∨ (authenticated config command ∧ authorized environ command
     ∧ handle_silence_command config environ w command
       = try_except (try_body config w command)).
Proof.
  destruct (decide (MATTERMOST_TOKENS config = [])) as [Hnone|Hsome].
  { left. assert (Hno : ¬ authenticated config command) by (by intros [? _]).
    split; [done|]. rewrite (handler_not_authenticated _ _ _ _ Hno).
    rewrite (bool_decide_eq_true_2 _ Hnone). eauto 10. }
  destruct (decide (token command ∈ MATTERMOST_TOKENS config)) as [Hin|Hout].
  2: { left. assert (Hno : ¬ authenticated config command) by (by intros [_ ?]).
       split; [done|]. rewrite (handler_not_authenticated _ _ _ _ Hno).
       rewrite (bool_decide_eq_false_2 _ Hsome). eauto 10. }
  assert (Hauth : authenticated config command) by done.
  right. destruct (get_approved_users environ) as [users|] eqn:Husers.
  - destruct (decide (user_name command ∈ users)) as [Hallowed|Hrefused].
    + right. assert (Hallow : authorized environ command).
      { unfold authorized. by rewrite Husers. }
      repeat split; [done..|]. by apply handler_checked.
    + left. repeat split; [done..| |].
      * unfold authorized. by rewrite Husers.
      * by apply (handler_not_authorized _ _ _ _ users).
  - right. assert (Hallow : authorized environ command).
    { unfold authorized. by rewrite Husers. }
    repeat split; [done..|]. by apply handler_checked.
Qed.

Lemma silence_with_cases config w username matcher_text duration_str comment_text :
  (∃ e, silence_with config w username matcher_text duration_str comment_text
        = ([], Raise e)
        ∧ parse_duration duration_str = Raise e)
  ∨ ∃ duration,
      parse_duration duration_str = Ok duration
      ∧ ((∃ e, silence_with config w username matcher_text duration_str comment_text
               = ((create_silence config w matcher_text duration comment_text
                     username).1, Raise e)
               ∧ (create_silence config w matcher_text duration comment_text
                    username).2 = Raise e)
         ∨ ∃ silence_id,
             (create_silence config w matcher_text duration comment_text username).2
             = Ok silence_id
             ∧ silence_with config w username matcher_text duration_str comment_text
               = ((create_silence config w matcher_text duration comment_text
                     username).1
                  ++ [Log INFO (str "Successfully created silence: " ++ silence_id
                                ++ str " for matcher: " ++ matcher_text)],
                  Ok (success_reply silence_id matcher_text duration_str comment_text
                        username))).
Proof.
  unfold silence_with.
  destruct (parse_duration duration_str) as [duration|e]; [|left; eauto].
  right. exists duration. split; [done|].
  destruct (create_silence _ _ _ _ _ _) as [events [silence_id|e]]; [right|left]; eauto.
Qed.

Lemma ephemeral_not_in_channel t : response_type (ephemeral t) ≠ str "in_channel".
Proof. unfold ephemeral. simpl. discriminate. Qed.

Lemma posts_snoc_log events l message : posts (events ++ [Log l message]) = posts events.
Proof. rewrite posts_app. apply app_nil_r. Qed.

(** A run that gets past both checks with three words or more, a duration
    that parses and a silence that Alertmanager takes: the silence is sent
    once, the creation is logged, and the reply goes to the channel with the
    identifier, the matcher, the duration as typed, the comment and the
    user. *)
Theorem handler_success config environ w command matcher_text duration_str word words
    duration data silence_id :
  authenticated config command → authorized environ command →
  split_whitespace (text command) = matcher_text :: duration_str :: word :: words →
  parse_duration duration_str = Ok duration →
  (create_silence config w matcher_text duration (join (str " ") (word :: words))
     (user_name command)).1 = [Post (silences_endpoint config) data] →
  accepted w (silences_endpoint config) data silence_id →
  handle_silence_command config environ w command
  = ([Post (silences_endpoint config) data;
      Log INFO (str "Successfully created silence: " ++ silence_id
                ++ str " for matcher: " ++ matcher_text)],
     Return (success_reply silence_id matcher_text duration_str
               (join (str " ") (word :: words)) (user_name command))).
Proof.
  intros Hauth Hallow Hargs Hparse Hsent Haccepted.
  rewrite (handler_checked _ _ _ _ Hauth Hallow), (try_body_three _ _ _ _ _ _ _ Hargs).
  pose proof (create_silence_result _ _ _ _ _ _ _ _ Hsent) as Hresult.
  rewrite (proj2 (response_silence_id _ _ _ _) Haccepted) in Hresult.
  unfold silence_with. rewrite Hparse.
  destruct (create_silence _ _ _ _ _ _) as [events r]. simpl in Hsent, Hresult.
  by subst.
Qed.

Lemma handler_success_witness :
  handle_silence_command example_config ∅ accepting_world
    (example_command "secret" "alice" "alertname=X 2h down")
  = ([Post (silences_endpoint example_config) example_silence;
      Log INFO (str "Successfully created silence: " ++ str "abc-123"
                ++ str " for matcher: " ++ str "alertname=X")],
     Return (success_reply (str "abc-123") (str "alertname=X") (str "2h")
               (join (str " ") [str "down"]) (str "alice"))).
Proof.
  apply (handler_success example_config ∅ accepting_world
           (example_command "secret" "alice" "alertname=X 2h down")
           (str "alertname=X") (str "2h") (str "down") [] two_hours).
  - apply example_authenticated.
  - apply example_authorized.
  - vm_compute. reflexivity.
  - vm_compute. reflexivity.
  - vm_compute. reflexivity.
  - exists {| status_code := 200; status_message := [];
              body := Ok (JObject {[ str "silenceID" := str "abc-123" ]}) |},
           {[ str "silenceID" := str "abc-123" ]}.
    repeat split; try reflexivity; simpl; lia.
Defined.

(** The handler announces a silence in the channel only after it has sent
    the silence and Alertmanager has taken it; the request had passed both
    checks. *)
Theorem in_channel_means_accepted config environ w command r :
  (handle_silence_command config environ w command).2 = Return r →
  response_type r = str "in_channel" →
  authenticated config command ∧ authorized environ command
  ∧ ∃ data silence_id,
      posts (handle_silence_command config environ w command).1
      = [(silences_endpoint config, data)]
      ∧ accepted w (silences_endpoint config) data silence_id.
Proof.
  intros Hret Htype.
  destruct (handler_cases config environ w command)
    as [(_ & status & detail & l & message & Hrun & _)
       | [(_ & _ & Hrun) | (Hauth & Hallow & Hrun)]];
    rewrite Hrun in *; simpl in Hret.
  - discriminate.
  - injection Hret as <-. by destruct (ephemeral_not_in_channel _ Htype).
  - repeat (split; [done|]).
    destruct (three_or_fewer (split_whitespace (text command)))
      as [Hfew | (m & d & word & words & Hargs)].
    { rewrite (try_body_few _ _ _ Hfew) in *. injection Hret as <-.
      by destruct (ephemeral_not_in_channel _ Htype). }
    rewrite (try_body_three _ _ _ _ _ _ _ Hargs) in *.
    destruct (silence_with_cases config w (user_name command) m d
                (join (str " ") (word :: words)))
      as [(e & Hwith & _) | (duration & _ & [(e & Hwith & _) | (id & Hid & Hwith)])];
      rewrite Hwith in *.
    + rewrite try_except_raise in Hret. injection Hret as <-.
      by destruct (ephemeral_not_in_channel _ Htype).
    + rewrite try_except_raise in Hret. injection Hret as <-.
      by destruct (ephemeral_not_in_channel _ Htype).
    + destruct (create_silence_events config w m duration
                  (join (str " ") (word :: words)) (user_name command))
        as [[_ [e He]] | [data Hsent]]; [by rewrite He in Hid|].
      exists data, id. unfold try_except. cbn [fst]. rewrite posts_snoc_log, Hsent.
      split; [done|].
      apply response_silence_id.
      by rewrite <- (create_silence_result _ _ _ _ _ _ _ _ Hsent).
Qed.

Lemma in_channel_means_accepted_witness :
  authenticated example_config (example_command "secret" "alice" "alertname=X 2h down")
  ∧ authorized ∅ (example_command "secret" "alice" "alertname=X 2h down")
  ∧ ∃ data silence_id,
      posts (handle_silence_command example_config ∅ accepting_world
               (example_command "secret" "alice" "alertname=X 2h down")).1
      = [(silences_endpoint example_config, data)]
      ∧ accepted accepting_world (silences_endpoint example_config) data silence_id.
Proof.
  apply (in_channel_means_accepted example_config ∅ accepting_world
           (example_command "secret" "alice" "alertname=X 2h down")
           (success_reply (str "abc-123") (str "alertname=X") (str "2h")
              (str "down") (str "alice"))).
  - vm_compute. reflexivity.
  - reflexivity.
Defined.

Lemma handler_sent config environ w command url data :
  Post url data ∈ (handle_silence_command config environ w command).1 →
  authenticated config command ∧ authorized environ command
  ∧ ∃ matcher_text duration_str word words duration,
      split_whitespace (text command) = matcher_text :: duration_str :: word :: words
      ∧ parse_duration duration_str = Ok duration
      ∧ Post url data
        ∈ (create_silence config w matcher_text duration
             (join (str " ") (word :: words)) (user_name command)).1.
Proof.
  intros Hin.
  destruct (handler_cases config environ w command)
    as [(_ & status & detail & l & message & Hrun & _)
       | [(_ & _ & Hrun) | (Hauth & Hallow & Hrun)]];
    rewrite Hrun in Hin.
  - by apply list_elem_of_singleton in Hin.
  - by apply elem_of_nil in Hin.
  - repeat (split; [done|]). apply try_except_sent in Hin.
    destruct (three_or_fewer (split_whitespace (text command)))
      as [Hfew | (m & d & word & words & Hargs)].
    { rewrite (try_body_few _ _ _ Hfew) in Hin. by apply elem_of_nil in Hin. }
    rewrite (try_body_three _ _ _ _ _ _ _ Hargs) in Hin.
    apply silence_with_sent in Hin as (duration & Hparse & Hin).
    by exists m, d, word, words, duration.
Qed.

Lemma handler_posts config environ w command :
  posts (handle_silence_command config environ w command).1 = []
  ∨ ∃ data,
      posts (handle_silence_command config environ w command).1
      = [(silences_endpoint config, data)]
      ∧ Post (silences_endpoint config) data
        ∈ (handle_silence_command config environ w command).1.
Proof.
  destruct (handler_cases config environ w command)
    as [(_ & status & detail & l & message & Hrun & _)
       | [(_ & _ & Hrun) | (Hauth & Hallow & Hrun)]];
    rewrite Hrun; [by left..|].
  rewrite try_except_posts.
  assert (Hkeep : ∀ url data, Post url data ∈ (try_body config w command).1 →
            Post url data ∈ (try_except (try_body config w command)).1).
  { intros url data. destruct (try_body config w command) as [events [r|e]]; [done|].
    rewrite try_except_raise. cbn [fst]. intros Hin. apply elem_of_app. by left. }
  destruct (three_or_fewer (split_whitespace (text command)))
    as [Hfew | (m & d & word & words & Hargs)].
  { rewrite (try_body_few _ _ _ Hfew). by left. }
  rewrite (try_body_three _ _ _ _ _ _ _ Hargs) in *.
  destruct (silence_with_cases config w (user_name command) m d
              (join (str " ") (word :: words)))
    as [(e & Hwith & _)
       | (duration & Hparse & [(e & Hwith & _) | (silence_id & _ & Hwith)])];
    rewrite Hwith in *; cbn [fst] in *; [by left|..]; rewrite ?posts_snoc_log;
    (destruct (create_silence_events config w m duration
                 (join (str " ") (word :: words)) (user_name command))
       as [[Hnone _] | [data Hsent]]; [left; by rewrite Hnone|]);
    right; exists data; rewrite Hsent in *; (split; [done|]); apply Hkeep.
  - apply list_elem_of_singleton. reflexivity.
  - apply elem_of_app. left. apply list_elem_of_singleton. reflexivity.
Qed.

(** The handler sends at most one request in a run, and only to the
    silences endpoint of the configured Alertmanager. *)
Theorem handler_sends_at_most_one config environ w command :
  posts (handle_silence_command config environ w command).1 = []
  ∨ ∃ data,
      posts (handle_silence_command config environ w command).1
      = [(silences_endpoint config, data)].
Proof.
  destruct (handler_posts config environ w command) as [Hnone | (data & Hone & _)];
    [by left|right; by exists data].
Qed.

(** The HTTP status of the answer depends on the tokens alone: 500 without
    configured tokens, 401 for a token that is not configured, and 200 in
    every other run, whatever the user, the text and Alertmanager do. *)
Theorem handler_status config environ w command :
  http_status (handle_silence_command config environ w command).2
  = if bool_decide (MATTERMOST_TOKENS config = []) then 500
    else if bool_decide (token command ∈ MATTERMOST_TOKENS config) then 200
    else 401.
Proof.
  destruct (handler_cases config environ w command)
    as [(Hno & _) | [([Hsome Hin] & _ & Hrun) | ([Hsome Hin] & _ & Hrun)]].
  - rewrite (handler_not_authenticated _ _ _ _ Hno).
    destruct (bool_decide_reflect (MATTERMOST_TOKENS config = [])); [done|].
    destruct (bool_decide_reflect (token command ∈ MATTERMOST_TOKENS config)); [|done].
    by destruct Hno.
  - rewrite Hrun, (bool_decide_eq_false_2 _ Hsome), (bool_decide_eq_true_2 _ Hin). done.
  - rewrite Hrun, (bool_decide_eq_false_2 _ Hsome), (bool_decide_eq_true_2 _ Hin).
    apply try_except_status.
Qed.

(** ** Durations in the handler *)

Lemma parse_duration_ok s td :
  parse_duration s = Ok td →
  ∃ ds u tail,
    digits_and_unit ds u ∧ (tail = [] ∨ tail = [10%N]) ∧ s = ds ++ u :: tail
    ∧ (length ds ≤ int_max_str_digits)%nat
    ∧ 0 ≤ numeral_value ds * unit_seconds u < span_limit
    ∧ td = span_of_seconds (numeral_value ds * unit_seconds u).
Proof.
  intros Hok.
  destruct (parse_duration_cases s)
    as [Hbad | (ds & u & tail & Hdu & Htail & -> & Hcases)];
    [rewrite Hbad in Hok; discriminate|].
  destruct Hcases as [(Hlen & Hfit & Hres) | [(_ & _ & msg & Hres) | (_ & msg & Hres)]];
    rewrite Hres in Hok; try discriminate.
  injection Hok as <-. exists ds, u, tail. repeat (split; [done|]).
  split; [|done]. split; [|done].
  apply Z.mul_nonneg_nonneg; [apply numeral_value_nonneg|].
  apply Z.lt_le_incl, unit_seconds_pos, Hdu.
Qed.

Lemma span_of_seconds_span total : span (span_of_seconds total) = total * 1000000.
Proof.
  unfold span, span_of_seconds. simpl.
  pose proof (Z.div_mod total 86400 ltac:(lia)). lia.
Qed.

Lemma word_without_newline ds u : ¬ is_word (ds ++ [u; 10%N]).
Proof.
  intros [_ Hfree]. unfold blank_free in Hfree. rewrite Forall_forall in Hfree.
  assert (Hin : 10%N ∈ ds ++ [u; 10%N]).
  { apply elem_of_app. right. apply elem_of_cons. right. apply list_elem_of_singleton.
    reflexivity. }
  by specialize (Hfree _ Hin).
Qed.

Lemma argument_is_word s (a : pystr) : a ∈ split_whitespace s → is_word a.
Proof.
  intros Hin. destruct (split_whitespace_spec s) as [Hwords _].
  rewrite Forall_forall in Hwords. by apply Hwords.
Qed.

(** Every silence that the handler sends starts at the time of the request
    and ends exactly the typed number of minutes, hours, days or weeks
    later: the second word of the text is a numeral and a unit letter, and
    the end sent is the ISO-8601 text of a valid time. *)
Theorem handler_sent_silence_ends_after_duration config environ w command url data :
  Post url data ∈ (handle_silence_command config environ w command).1 →
  ∃ matcher_text ds u word words end_time,
    split_whitespace (text command) = matcher_text :: (ds ++ [u]) :: word :: words
    ∧ digits_and_unit ds u
    ∧ startsAt data = isoformat (now w)
    ∧ endsAt data = isoformat end_time
    ∧ well_formed end_time
    ∧ instant end_time
      = instant (now w) + numeral_value ds * unit_seconds u * 1000000.
Proof.
  intros (_ & _ & m & d & word & words & duration & Hargs & Hparse & Hsent)%handler_sent.
  apply create_silence_sent_inv in Hsent as (end_time & ms & Hend & _ & _ & ->).
  apply parse_duration_ok in Hparse
    as (ds & u & tail & Hdu & Htail & -> & _ & _ & ->).
  assert (Hword : is_word (ds ++ u :: tail)).
  { apply (argument_is_word (text command)). rewrite Hargs.
    apply elem_of_cons. right. apply elem_of_cons. by left. }
  destruct Htail as [-> | ->]; [|by destruct (word_without_newline ds u)].
  exists m, ds, u, word, words, end_time.
  apply datetime_add_instant in Hend as [Hinstant Hwf].
  rewrite span_of_seconds_span in Hinstant.
  split; [done|]. split; [done|]. split; [done|]. split; [done|]. by split.
Qed.

Lemma handler_sent_silence_ends_after_duration_witness :
  ∃ matcher_text ds u word words end_time,
    split_whitespace (text (example_command "secret" "alice" "alertname=X 2h down"))
    = matcher_text :: (ds ++ [u]) :: word :: words
    ∧ digits_and_unit ds u
    ∧ startsAt example_silence = isoformat (now accepting_world)
    ∧ endsAt example_silence = isoformat end_time
    ∧ well_formed end_time
    ∧ instant end_time
      = instant (now accepting_world) + numeral_value ds * unit_seconds u * 1000000.
Proof.
  apply (handler_sent_silence_ends_after_duration example_config ∅ accepting_world
           (example_command "secret" "alice" "alertname=X 2h down") example_url).
  vm_compute. constructor.
Defined.

Lemma datetime_add_range t d :
  well_formed t → whole_span d →
  (instant t + span d < end_of_time → ∃ t', datetime_add t d = Ok t')
  ∧ (end_of_time ≤ instant t + span d →
     datetime_add t d = Raise (Exn OverflowError (str "date value out of range"))).
Proof.
  intros (Hord & Hsec & Hus) (Hdays & Hseconds & Hmicro).
  unfold datetime_add, instant, span, end_of_time, MAXORDINAL in *. rewrite Hmicro.
  rewrite !Z.add_0_r. rewrite (Z.div_small (microsecond t)) by lia. rewrite !Z.add_0_r.
  set (s := day_second t + seconds d).
  pose proof (Z.div_mod s 86400 ltac:(lia)) as Hs.
  pose proof (Z.mod_pos_bound s 86400 ltac:(lia)) as Hmod.
  assert (0 ≤ s / 86400) by (apply Z.div_pos; lia).
  split; intros Hrange.
  - destruct (Z.leb_spec 1 (day_ordinal t + days d + s / 86400)); [|lia].
    destruct (Z.leb_spec (day_ordinal t + days d + s / 86400) 3652059); [|lia].
    simpl. eauto.
  - destruct (Z.leb_spec 1 (day_ordinal t + days d + s / 86400)); [|lia].
    destruct (Z.leb_spec (day_ordinal t + days d + s / 86400) 3652059); [lia|].
    reflexivity.
Qed.

(** A duration that parses but leads past the last day of year 9999 is
    answered with the ephemeral reply "An error occurred: date value out of
    range"; nothing is sent, and the matcher is not looked at. *)
Theorem handler_end_out_of_range config environ w command matcher_text duration_str
    word words duration :
  authenticated config command → authorized environ command →
  split_whitespace (text command) = matcher_text :: duration_str :: word :: words →
  parse_duration duration_str = Ok duration →
  well_formed (now w) →
  end_of_time ≤ instant (now w) + span duration →
  handle_silence_command config environ w command
  = ([Log ERROR (str "Error processing silence command")],
     Return (ephemeral (str "An error occurred: date value out of range"))).
Proof.
  intros Hauth Hallow Hargs Hparse Hnow Hlate.
  rewrite (handler_checked _ _ _ _ Hauth Hallow), (try_body_three _ _ _ _ _ _ _ Hargs).
  assert (Hspan : whole_span duration).
  { apply parse_duration_ok in Hparse as (ds & u & tail & _ & _ & _ & _ & Hrange & ->).
    by apply span_of_seconds_whole. }
  destruct (datetime_add_range (now w) duration Hnow Hspan) as [_ Hraise].
  unfold silence_with, create_silence. by rewrite Hparse, (Hraise Hlate).
Qed.

Lemma handler_end_out_of_range_witness :
  handle_silence_command example_config ∅ accepting_world
    (example_command "secret" "alice" "no-label 999999999d down")
  = ([Log ERROR (str "Error processing silence command")],
     Return (ephemeral (str "An error occurred: date value out of range"))).
Proof.
  apply (handler_end_out_of_range example_config ∅ accepting_world
           (example_command "secret" "alice" "no-label 999999999d down")
           (str "no-label") (str "999999999d") (str "down") []
           {| days := 999999999; seconds := 0; microseconds := 0 |}).
  - apply example_authenticated.
  - apply example_authorized.
  - vm_compute. reflexivity.
  - vm_compute. reflexivity.
  - vm_compute. repeat split; discriminate.
  - vm_compute. discriminate.
Defined.

(** A second word that is not digits followed by one of m, h, d, w is
    answered with the ephemeral reply that explains the duration format, and
    nothing is sent, whatever the matcher is. *)
Theorem handler_refuses_duration config environ w command matcher_text duration_str
    word words :
  authenticated config command → authorized environ command →
  split_whitespace (text command) = matcher_text :: duration_str :: word :: words →
  (∀ ds u, digits_and_unit ds u → duration_str ≠ ds ++ [u]) →
  handle_silence_command config environ w command
  = ([Log ERROR (str "Validation error in silence command: Error: Invalid duration format. Use <number><unit> where unit is m,h,d,w")],
     Return (ephemeral (str "Error: Invalid duration format. Use <number><unit> where unit is m,h,d,w"))).
Proof.
  intros Hauth Hallow Hargs Hnot.
  rewrite (handler_checked _ _ _ _ Hauth Hallow), (try_body_three _ _ _ _ _ _ _ Hargs).
  assert (Hword : is_word duration_str).
  { apply (argument_is_word (text command)). rewrite Hargs.
    apply elem_of_cons. right. apply elem_of_cons. by left. }
  rewrite (silence_with_bad_duration _ _ _ _ _ _ invalid_duration_format); [done|].
  apply parse_duration_no_match. intros ds u Hdu. split; [by apply Hnot|].
  intros ->. by destruct (word_without_newline ds u).
Qed.

Lemma handler_refuses_duration_witness :
  handle_silence_command example_config ∅ accepting_world
    (example_command "secret" "alice" "alertname=X 1.5h down")
  = ([Log ERROR (str "Validation error in silence command: Error: Invalid duration format. Use <number><unit> where unit is m,h,d,w")],
     Return (ephemeral (str "Error: Invalid duration format. Use <number><unit> where unit is m,h,d,w"))).
Proof.
  apply (handler_refuses_duration example_config ∅ accepting_world
           (example_command "secret" "alice" "alertname=X 1.5h down")
           (str "alertname=X") (str "1.5h") (str "down") []).
  - apply example_authenticated.
  - apply example_authorized.
  - vm_compute. reflexivity.
  - intros ds u (_ & Hdec & _) Heq.
    assert (Hdot : 46%N ∈ ds).
    { destruct ds as [|a [|b [|c [|e ds']]]]; try discriminate.
      injection Heq as <- <- <- <-. apply elem_of_cons. right. apply elem_of_cons. by left.
      injection Heq as _ _ _ _ Hnil. by destruct ds'. }
    rewrite Forall_forall in Hdec. specialize (Hdec _ Hdot). discriminate.
Defined.

(** ** The arguments and the matchers that the handler passes on *)

(** With three words or more, the matcher and the duration that the handler
    takes from the text are not empty and hold no blank, and the comment is
    the other words with one space between two of them: splitting it gives
    these words back. *)
Theorem command_arguments s matcher_text duration_str word words :
  split_whitespace s = matcher_text :: duration_str :: word :: words →
  is_word matcher_text ∧ is_word duration_str
  ∧ split_whitespace (join (str " ") (word :: words)) = word :: words.
Proof.
  intros Hargs. destruct (split_whitespace_spec s) as [Hwords _].
  rewrite Hargs in Hwords.
  inversion Hwords as [|? ? Hm Hrest]; subst.
  inversion Hrest as [|? ? Hd Hcomment]; subst.
  repeat (split; [done|]). by apply split_whitespace_join.
Qed.

Lemma command_arguments_witness :
  is_word (str "alertname=X") ∧ is_word (str "2h")
  ∧ split_whitespace (join (str " ") [str "disk"; str "is"; str "full"])
    = [str "disk"; str "is"; str "full"].
Proof.
  apply (command_arguments (str "  alertname=X 2h   disk is  full ")).
  vm_compute. reflexivity.
Defined.

Lemma elem_of_join (sep : pystr) ws (w : pystr) (c : N) :
  w ∈ ws → c ∈ w → c ∈ join sep ws.
Proof.
  intros Hw Hc. induction ws as [|x [|y ys] IH].
  - by apply elem_of_nil in Hw.
  - apply list_elem_of_singleton in Hw. by subst.
  - rewrite join_cons_cons. apply elem_of_cons in Hw as [-> | Hw].
    + apply elem_of_app. by left.
    + apply elem_of_app. right. apply elem_of_app. right. by apply IH.
Qed.

Lemma elem_of_split_piece (sep : N) s (piece : pystr) (c : N) :
  piece ∈ split sep s → c ∈ piece → c ∈ s.
Proof.
  intros Hpiece Hc. rewrite <- (join_split sep s). by apply (elem_of_join _ _ piece).
Qed.

Lemma matcher_of_chars label m (c : N) :
  matcher_of label m → c ∈ name m ++ value m → c ∈ label ∧ c ≠ 61%N.
Proof.
  intros (_ & Hn & Hv & Hlabel) Hc. split.
  - apply elem_of_app in Hc.
    destruct Hlabel as [-> | [more ->]]; apply elem_of_app;
      destruct Hc as [Hc | Hc]; [by left| |by left|].
    + right. apply elem_of_cons. by right.
    + right. apply elem_of_cons. right. apply elem_of_app. by left.
  - intros ->. apply elem_of_app in Hc as [Hc | Hc]; [by apply Hn|by apply Hv].
Qed.

(** Every matcher that the handler sends has isRegex false and a name and a
    value that hold no '=', no ',' and no blank. *)
Theorem handler_sent_matchers config environ w command url data :
  Post url data ∈ (handle_silence_command config environ w command).1 →
  Forall (fun m => isRegex m = false ∧ no_separator (name m ++ value m))
    (matchers data).
Proof.
  intros (_ & _ & mt & d & word & words & duration & Hargs & _ & Hsent)%handler_sent.
  apply create_silence_sent_inv in Hsent as (end_time & ms & _ & Hms & _ & ->).
  simpl.
  assert (Hword : is_word mt).
  { apply (argument_is_word (text command)). rewrite Hargs. apply elem_of_cons. by left. }
  destruct (build_matchers_cases (split 44%N mt)) as [(_ & ms' & Hms' & Hof) | [_ Hraise]];
    [|by rewrite Hraise in Hms].
  rewrite Hms' in Hms. injection Hms as ->.
  pose proof (split_pieces 44%N mt) as Hpieces.
  assert (Hlabels : Forall (fun label : pystr => ∀ c, c ∈ label →
                              c ≠ 44%N ∧ is_space c = false) (split 44%N mt)).
  { rewrite Forall_forall in Hpieces. apply Forall_forall. intros label Hlabel c Hc.
    split; [intros ->; by apply (Hpieces label)|].
    destruct Hword as [_ Hfree]. unfold blank_free in Hfree.
    rewrite Forall_forall in Hfree. apply Hfree.
    by apply (elem_of_split_piece 44%N mt label). }
  clear Hms' Hpieces. induction Hof as [|label m labels ms' Hm _ IH]; [constructor|].
  inversion Hlabels as [|? ? Hlabel Hrest]; subst.
  constructor; [|by apply IH]. split; [apply Hm|].
  apply Forall_forall. intros c Hc.
  destruct (matcher_of_chars label m c Hm Hc) as [Hin Hne].
  destruct (Hlabel c Hin) as [Hcomma Hblank]. done.
Qed.

Lemma handler_sent_matchers_witness :
  Forall (fun m => isRegex m = false ∧ no_separator (name m ++ value m))
    (matchers example_silence).
Proof.
  apply (handler_sent_matchers example_config ∅ accepting_world
           (example_command "secret" "alice" "alertname=X 2h down") example_url).
  vm_compute. constructor.
Defined.

(** When Alertmanager answers 2xx with a JSON object that has no
    "silenceID", the silence has been sent and the user is told
    "An error occurred: 'silenceID'". *)
Theorem handler_answer_without_id config environ w command matcher_text duration_str
    word words duration data r members :
  authenticated config command → authorized environ command →
  split_whitespace (text command) = matcher_text :: duration_str :: word :: words →
  parse_duration duration_str = Ok duration →
  (create_silence config w matcher_text duration (join (str " ") (word :: words))
     (user_name command)).1 = [Post (silences_endpoint config) data] →
  post w (silences_endpoint config) data = Ok r →
  200 ≤ status_code r ≤ 299 →
  body r = Ok (JObject members) → members !! str "silenceID" = None →
  handle_silence_command config environ w command
  = ([Post (silences_endpoint config) data;
      Log ERROR (str "Error processing silence command")],
     Return (ephemeral (str "An error occurred: 'silenceID'"))).
Proof.
  intros Hauth Hallow Hargs Hparse Hsent Hpost Hstatus Hbody Hid.
  rewrite (handler_checked _ _ _ _ Hauth Hallow), (try_body_three _ _ _ _ _ _ _ Hargs).
  pose proof (create_silence_result _ _ _ _ _ _ _ _ Hsent) as Hresult.
  rewrite Hpost in Hresult. simpl in Hresult.
  rewrite (proj2 (raise_for_status_ok r) Hstatus), Hbody in Hresult. simpl in Hresult.
  rewrite Hid in Hresult.
  unfold silence_with. rewrite Hparse.
  destruct (create_silence _ _ _ _ _ _) as [events res]. simpl in Hsent, Hresult.
  by subst.
Qed.

Lemma handler_answer_without_id_witness :
  handle_silence_command example_config ∅ forgetful_world
    (example_command "secret" "alice" "alertname=X 2h down")
  = ([Post (silences_endpoint example_config) example_silence;
      Log ERROR (str "Error processing silence command")],
     Return (ephemeral (str "An error occurred: 'silenceID'"))).
Proof.
  apply (handler_answer_without_id example_config ∅ forgetful_world
           (example_command "secret" "alice" "alertname=X 2h down")
           (str "alertname=X") (str "2h") (str "down") [] two_hours example_silence
           {| status_code := 200; status_message := []; body := Ok (JObject ∅) |} ∅).
  - apply example_authenticated.
  - apply example_authorized.
  - vm_compute. reflexivity.
  - vm_compute. reflexivity.
  - vm_compute. reflexivity.
  - reflexivity.
  - simpl. lia.
  - reflexivity.
  - reflexivity.
Defined.

(** ** The configuration *)

Lemma Config_new_fields environ config :
  Config_new environ = Ok config →
  py_int (environ_get environ (str "PORT") (str "7788")) = Ok (PORT config)
  ∧ MATTERMOST_TOKENS config
    = comma_list (environ_get environ (str "MATTERMOST_TOKENS") [])
  ∧ ALERTMANAGER_URL config
    = environ_get environ (str "ALERTMANAGER_URL") (str "http://alertmanager:9093")
  ∧ HOST config = environ_get environ (str "HOST") (str "0.0.0.0").
Proof.
  unfold Config_new.
  destruct (py_int (environ_get environ (str "PORT") (str "7788"))) as [port|e];
    [|done].
  simpl. by intros [= <-].
Qed.

(** The tokens of a configuration read from the environment and the users
    of an allow-list are never empty texts, have no blank at either end and
    hold no comma. *)
Theorem environment_lists_hold_entries environ :
  (∀ config, Config_new environ = Ok config →
     Forall list_entry (MATTERMOST_TOKENS config))
  ∧ (∀ users, get_approved_users environ = Some users → Forall list_entry users).
Proof.
  split.
  - intros config (_ & -> & _)%Config_new_fields. apply comma_list_entries.
  - intros users. unfold get_approved_users.
    destruct (environ !! str "ALLOWED_USERS") as [[|c t]|]; [done| |done].
    intros [= <-]. apply comma_list_entries.
Qed.

Lemma environment_lists_hold_entries_witness :
  Forall list_entry (MATTERMOST_TOKENS example_config)
  ∧ Forall list_entry [str "alice"; str "bob"].
Proof.
  split.
  - apply (proj1 (environment_lists_hold_entries startup_environ) example_config).
    vm_compute. reflexivity.
  - apply (proj2 (environment_lists_hold_entries startup_environ)
             [str "alice"; str "bob"]).
    vm_compute. reflexivity.
Defined.

Lemma join_entries_not_nil w ws : Forall list_entry (w :: ws) → join (str ",") (w :: ws) ≠ [].
Proof.
  intros Hws. inversion Hws as [|? ? [Hw _] _]; subst.
  apply trimmed_not_nil in Hw. destruct w as [|c t]; [done|]. by destruct ws.
Qed.

(** Entries written with commas between them are read back as they are, in
    order: as the tokens of the configuration, and as the allow-list when
    there is at least one entry. *)
Theorem environment_lists_round_trip environ ws :
  Forall list_entry ws →
  (∀ config, environ !! str "MATTERMOST_TOKENS" = Some (join (str ",") ws) →
     Config_new environ = Ok config → MATTERMOST_TOKENS config = ws)
  ∧ (ws ≠ [] → environ !! str "ALLOWED_USERS" = Some (join (str ",") ws) →
     get_approved_users environ = Some ws).
Proof.
  intros Hws. split.
  - intros config Hset (_ & -> & _)%Config_new_fields.
    unfold environ_get. rewrite Hset. by apply comma_list_join.
  - intros Hne Hset. unfold get_approved_users. rewrite Hset.
    destruct ws as [|w ws']; [done|].
    pose proof (join_entries_not_nil w ws' Hws) as Hjoin.
    destruct (join (str ",") (w :: ws')) as [|c t] eqn:Heq; [done|].
    rewrite <- Heq. by rewrite comma_list_join.
Qed.

Lemma environment_lists_round_trip_witness :
  get_approved_users startup_environ = Some [str "alice"; str "bob"].
Proof.
  assert (Hentries : Forall list_entry [str "alice"; str "bob"]).
  { repeat constructor; try (eexists; split; reflexivity);
      apply (bool_decide_eq_false _); vm_compute; reflexivity. }
  apply (proj2 (environment_lists_round_trip startup_environ [str "alice"; str "bob"]
                  Hentries)).
  - discriminate.
  - vm_compute. reflexivity.
Defined.

(** A token that is empty, starts or ends with a blank, or holds a comma is
    never accepted by a configuration read from the environment: the answer
    is 401 or 500 and nothing is sent. *)
Theorem malformed_token_rejected environ config environ' w command :
  Config_new environ = Ok config → ¬ list_entry (token command) →
  (http_status (handle_silence_command config environ' w command).2 = 401
   ∨ http_status (handle_silence_command config environ' w command).2 = 500)
  ∧ posts (handle_silence_command config environ' w command).1 = [].
Proof.
  intros (_ & Htokens & _)%Config_new_fields Hbad.
  assert (Hno : ¬ authenticated config command).
  { intros [_ Hin]. apply Hbad. rewrite Htokens in Hin.
    pose proof (comma_list_entries (environ_get environ (str "MATTERMOST_TOKENS") []))
      as Hentries.
    rewrite Forall_forall in Hentries. by apply Hentries. }
  rewrite (handler_not_authenticated _ _ _ _ Hno).
  destruct (bool_decide (MATTERMOST_TOKENS config = [])); simpl; auto.
Qed.

Lemma malformed_token_rejected_witness :
  (http_status (handle_silence_command example_config ∅ accepting_world
                  (example_command "" "alice" "alertname=X 2h down")).2 = 401
   ∨ http_status (handle_silence_command example_config ∅ accepting_world
                    (example_command "" "alice" "alertname=X 2h down")).2 = 500)
  ∧ posts (handle_silence_command example_config ∅ accepting_world
             (example_command "" "alice" "alertname=X 2h down")).1 = [].
Proof.
  apply (malformed_token_rejected startup_environ).
  - vm_compute. reflexivity.
  - intros [[(c & Hhead & _) _] _]. discriminate.
Defined.

Lemma lstrip_blank s : blank s → lstrip s = [].
Proof. induction 1 as [|c s Hc _ IH]; [done|]. simpl. by rewrite Hc. Qed.

Lemma strip_blank s : blank s → strip s = [].
Proof. intros Hs. unfold strip. by rewrite (lstrip_blank s Hs). Qed.

Lemma comma_list_blank s :
  Forall (fun c => c = 44%N ∨ is_space c = true) s → comma_list s = [].
Proof.
  intros Hs. unfold comma_list.
  assert (Hpieces : Forall blank (split 44%N s)).
  { pose proof (split_pieces 44%N s) as Hno. rewrite Forall_forall in Hno.
    rewrite Forall_forall in Hs.
    apply Forall_forall. intros piece Hpiece. apply Forall_forall. intros c Hc.
    destruct (Hs c (elem_of_split_piece _ _ _ _ Hpiece Hc)) as [-> | Hblank]; [|done].
    by destruct (Hno piece Hpiece). }
  induction Hpieces as [|piece pieces Hpiece _ IH]; [done|].
  cbn [omap list_omap]. by rewrite (strip_blank piece Hpiece).
Qed.

(** A configuration read from an environment where MATTERMOST_TOKENS is
    unset, empty or made of commas and blanks only has no token: every
    request is answered 500 and nothing is sent; when the form binds to a
    command, the error "No Mattermost tokens configured" is logged and is
    the detail of the answer. *)
Theorem config_without_tokens environ config environ' w f :
  Config_new environ = Ok config →
  Forall (fun c => c = 44%N ∨ is_space c = true)
    (environ_get environ (str "MATTERMOST_TOKENS") []) →
  route_status (post_silence config environ' w f).2 = 500
  ∧ posts (post_silence config environ' w f).1 = []
  ∧ (∀ command, bind_command f = Some command →
       post_silence config environ' w f
       = ([Log ERROR (str "No Mattermost tokens configured")],
          Answer (HTTPException 500 (str "No Mattermost tokens configured")))).
Proof.
  intros (_ & Htokens & _)%Config_new_fields Hblank.
  rewrite (comma_list_blank _ Hblank) in Htokens.
  assert (Hbound : ∀ command, bind_command f = Some command →
            post_silence config environ' w f
            = ([Log ERROR (str "No Mattermost tokens configured")],
               Answer (HTTPException 500 (str "No Mattermost tokens configured")))).
  { intros command Hbind. rewrite (post_silence_bound _ _ _ _ _ Hbind).
    rewrite handler_not_authenticated by (by intros [? _]).
    by rewrite (bool_decide_eq_true_2 _ Htokens). }
  destruct (bind_command f) as [command|] eqn:Hbind.
  - by rewrite (Hbound command eq_refl).
  - by rewrite (post_silence_unbound _ _ _ _ Hbind).
Qed.

Lemma config_without_tokens_witness :
  route_status (post_silence unconfigured ∅ accepting_world
                  (example_form "secret" "alice" "alertname=X 2h down")).2 = 500
  ∧ posts (post_silence unconfigured ∅ accepting_world
             (example_form "secret" "alice" "alertname=X 2h down")).1 = []
  ∧ (∀ command,
       bind_command (example_form "secret" "alice" "alertname=X 2h down") = Some command →
       post_silence unconfigured ∅ accepting_world
         (example_form "secret" "alice" "alertname=X 2h down")
       = ([Log ERROR (str "No Mattermost tokens configured")],
          Answer (HTTPException 500 (str "No Mattermost tokens configured")))).
Proof.
  apply (config_without_tokens {[ str "MATTERMOST_TOKENS" := str " , ," ]}).
  - vm_compute. reflexivity.
  - vm_compute.
    repeat (apply List.Forall_cons; [first [left; reflexivity|right; reflexivity]|]).
    apply List.Forall_nil.
Defined.

(** The port of the configuration: 7788 when PORT is unset, the value of
    the numeral when PORT is made of decimal digits, and no configuration
    at all, but a [ValueError], when PORT is set to the empty text. *)
Theorem config_port environ :
  (environ !! str "PORT" = None →
   ∃ config, Config_new environ = Ok config ∧ PORT config = 7788)
  ∧ (∀ ds, environ !! str "PORT" = Some ds →
       ds ≠ [] → all_decimal ds → (length ds ≤ int_max_str_digits)%nat →
       ∃ config, Config_new environ = Ok config ∧ PORT config = numeral_value ds)
  ∧ (environ !! str "PORT" = Some [] →
     Config_new environ
     = Raise (Exn ValueError (str "invalid literal for int() with base 10: ''"))).
Proof.
  unfold Config_new, environ_get. repeat split.
  - intros ->. change (py_int (str "7788")) with (Ok (A:=Z) 7788). simpl. eauto.
  - intros ds -> Hne Hdec Hlen. rewrite (py_int_numeral ds Hne Hdec Hlen). simpl. eauto.
  - intros ->. reflexivity.
Qed.

Lemma config_port_witness :
  (∃ config, Config_new ∅ = Ok config ∧ PORT config = 7788)
  ∧ (∃ config, Config_new {[ str "PORT" := str "08080" ]} = Ok config
               ∧ PORT config = numeral_value (str "08080"))
  ∧ Config_new {[ str "PORT" := [] ]}
    = Raise (Exn ValueError (str "invalid literal for int() with base 10: ''")).
Proof.
  split; [|split].
  - apply (proj1 (config_port ∅)). reflexivity.
  - apply (proj1 (proj2 (config_port {[ str "PORT" := str "08080" ]})) (str "08080")).
    + vm_compute. reflexivity.
    + discriminate.
    + repeat constructor.
    + vm_compute. lia.
  - apply (proj2 (proj2 (config_port {[ str "PORT" := [] ]}))).
    vm_compute. reflexivity.
Defined.

(** ** Segments of the matcher *)

(** Splitting on a character loses nothing: no piece holds the character,
    and the pieces joined by it are the text. *)
Theorem split_round_trip (sep : N) s :
  join [sep] (split sep s) = s ∧ Forall (fun piece : pystr => sep ∉ piece) (split sep s).
Proof. split; [apply join_split|apply split_pieces]. Qed.

Lemma split_last_sep sep s : split sep (s ++ [sep]) = split sep s ++ [[]].
Proof.
  induction s as [|c s IH]; simpl.
  - by rewrite N.eqb_refl.
  - destruct (c =? sep)%N; rewrite IH; [done|].
    pose proof (split_not_nil sep s). by destruct (split sep s).
Qed.

(** A matcher text that is empty, or starts or ends with a comma, has an
    empty segment: [create_silence] raises [IndexError] and sends nothing. *)
Theorem create_silence_empty_segment config w matcher_text duration comment_text
    username end_time :
  datetime_add (now w) duration = Ok end_time →
  matcher_text = [] ∨ head matcher_text = Some 44%N ∨ last matcher_text = Some 44%N →
  create_silence config w matcher_text duration comment_text username
  = ([], Raise index_error).
Proof.
  intros Hend Hcomma.
  apply (create_silence_no_matchers _ _ _ _ _ _ end_time); [done|].
  apply build_matchers_raise. rewrite Forall_forall. intros Hall.
  assert (Hin : [] ∈ split 44%N matcher_text).
  { destruct Hcomma as [-> | [Hhead | Hlast]].
    - apply list_elem_of_singleton. reflexivity.
    - destruct matcher_text as [|c t]; [done|]. injection Hhead as ->.
      simpl. apply elem_of_cons. by left.
    - destruct (last_Some matcher_text 44%N) as [[t ->] _]; [done|].
      rewrite split_last_sep. apply elem_of_app. right.
      apply list_elem_of_singleton. reflexivity. }
  by apply (elem_of_nil 61%N), (Hall [] Hin).
Qed.

Lemma create_silence_empty_segment_witness :
  create_silence example_config accepting_world (str "alertname=X,") two_hours
    (str "down") (str "alice") = ([], Raise index_error).
Proof.
  apply (create_silence_empty_segment example_config accepting_world
           (str "alertname=X,") two_hours (str "down") (str "alice")
           {| day_ordinal := 738887; day_second := 18245; microsecond := 0 |}).
  - vm_compute. reflexivity.
  - right. right. reflexivity.
Defined.

(** ** More on the checks *)

(** An ALLOWED_USERS text that is not empty but holds only commas and
    blanks gives an allow-list without entries: every request that passes
    the token check is refused, whoever sends it. *)
Theorem allow_list_without_entries config environ w command users :
  authenticated config command →
  environ !! str "ALLOWED_USERS" = Some users → users ≠ [] →
  Forall (fun c => c = 44%N ∨ is_space c = true) users →
  handle_silence_command config environ w command
  = ([], Return (ephemeral not_authorized_text)).
Proof.
  intros Hauth Hset Hne Hblank.
  apply (handler_not_authorized _ _ _ _ []); [done| |apply not_elem_of_nil].
  unfold get_approved_users. rewrite Hset.
  destruct users as [|c t]; [done|]. by rewrite (comma_list_blank _ Hblank).
Qed.

Lemma allow_list_without_entries_witness :
  handle_silence_command example_config {[ str "ALLOWED_USERS" := str " " ]}
    accepting_world (example_command "secret" "alice" "alertname=X 2h down")
  = ([], Return (ephemeral not_authorized_text)).
Proof.
  apply (allow_list_without_entries example_config {[ str "ALLOWED_USERS" := str " " ]}
           accepting_world (example_command "secret" "alice" "alertname=X 2h down")
           (str " ")).
  - apply example_authenticated.
  - vm_compute. reflexivity.
  - discriminate.
  - apply List.Forall_cons; [right; reflexivity|apply List.Forall_nil].
Defined.

